(** * agents-towards-production: the two tutorial notebooks

    A shallow embedding of the Python code cells of
    [tutorials/tracing-with-langsmith/langsmith_basics.ipynb] (the
    decide / search / respond pipeline) and of the Anchor browser data-entry
    notebook that follows it in the same source file.

    Conventions of the embedding.
    - A Python [str] is a [string]; a character is a code point below 256.
    - The pipeline state is the Python dict it is at run time: a finite map
      from key names to dynamically typed values.
    - The hosted services (LLM, Wikipedia, the Anchor cloud API, the remote
      browser) are oracles of a [World]; every call is appended to an event
      log, and a call may return or raise.
    - A Python exception is a value of [PyExc]; code that can raise returns a
      [Result]. Only [Exception] subclasses are represented: asynchronous
      signals such as KeyboardInterrupt are outside the model.
    - [print] calls write to stdout only and are left out. *)

From Stdlib Require Import ZArith Ascii Decimal DecimalString.
From stdpp Require Import gmap strings list.

(** ** Python string primitives *)

Module PyStr.

Definition chr (n : nat) : string := String (Ascii.ascii_of_nat n) "".

(** The newline character and the double quote character. *)
Definition nl : string := chr 10.
Definition dq : string := chr 34.

(** [str.isspace] on one code point below 256: the Unicode white space
    characters (TAB, LF, VT, FF, CR, FS, GS, RS, US, SPACE, NEL, NBSP). *)
Definition is_space (c : ascii) : bool :=
  let n := Ascii.nat_of_ascii c in
  ((9 <=? n) && (n <=? 13)) || ((28 <=? n) && (n <=? 32))
  || (n =? 133) || (n =? 160).

Definition is_empty (s : string) : bool :=
  match s with EmptyString => true | String _ _ => false end.

(** [s.lstrip()] *)
Fixpoint lstrip (s : string) : string :=
  match s with
  | EmptyString => EmptyString
  | String c r => if is_space c then lstrip r else s
  end.

(** [s.rstrip()] *)
Fixpoint rstrip (s : string) : string :=
  match s with
  | EmptyString => EmptyString
  | String c r =>
      let r' := rstrip r in
      if is_space c && is_empty r' then EmptyString else String c r'
  end.

(** [s.strip()] *)
Definition strip (s : string) : string := rstrip (lstrip s).

(** [s.split(sep)] for a one-character separator: never the empty list. *)
Fixpoint split (sep : ascii) (s : string) : list string :=
  match s with
  | EmptyString => [EmptyString]
  | String c r =>
      if Ascii.eqb c sep then EmptyString :: split sep r
      else match split sep r with
           | [] => [String c EmptyString]
           | l :: ls => String c l :: ls
           end
  end.

(** [sep.join(lines)] for a one-character separator. *)
Fixpoint join (sep : ascii) (lines : list string) : string :=
  match lines with
  | [] => ""
  | [l] => l
  | l :: rest => l +:+ String sep (join sep rest)
  end.

(** [s.startswith(p)] *)
Fixpoint startswith (p s : string) : bool :=
  match p, s with
  | EmptyString, _ => true
  | String _ _, EmptyString => false
  | String a p', String b s' => Ascii.eqb a b && startswith p' s'
  end.

(** [needle in hay] *)
Fixpoint contains (needle hay : string) : bool :=
  startswith needle hay ||
  match hay with
  | EmptyString => false
  | String _ r => contains needle r
  end.

(** [s.replace(a, b)] for one-character [a] and [b]. *)
Fixpoint replace (a b : ascii) (s : string) : string :=
  match s with
  | EmptyString => EmptyString
  | String c r => String (if Ascii.eqb c a then b else c) (replace a b r)
  end.

(** [s[:n]] for a non-negative [n]. *)
Fixpoint slice_to (n : nat) (s : string) : string :=
  match n, s with
  | O, _ => EmptyString
  | S _, EmptyString => EmptyString
  | S k, String c r => String c (slice_to k r)
  end.

(** [str(n)] for an [int]. *)
Definition of_int (n : Z) : string := NilZero.string_of_int (Z.to_int n).

(** A decimal digit or the minus sign. *)
Definition digit_or_minus (c : ascii) : bool :=
  let n := nat_of_ascii c in ((48 <=? n) && (n <=? 57)) || (n =? 45).

(** The characters of a string, for membership arguments. *)
Fixpoint chars (s : string) : list ascii :=
  match s with
  | EmptyString => []
  | String c r => c :: chars r
  end.

End PyStr.

(** ** Python values, exceptions and results *)

(** A Python exception object: its class name and [str(e)]. *)
Record PyExc := mkExc { exc_class : string; exc_str : string }.

Inductive Result (A : Type) : Type :=
| Ok (a : A)
| Raise (e : PyExc).
Arguments Ok {A} a.
Arguments Raise {A} e.

Definition is_ok {A} (r : Result A) : bool :=
  match r with Ok _ => true | Raise _ => false end.

(** The values a state key holds at run time. *)
Inductive PyVal :=
| VStr (s : string)
| VBool (b : bool).

(** Truthiness, as [if v:] and [not v] see it. *)
Definition truthy (v : PyVal) : bool :=
  match v with
  | VStr s => negb (PyStr.is_empty s)
  | VBool b => b
  end.

(** [str(v)], which is what an f-string field [{v}] renders. *)
Definition py_format (v : PyVal) : string :=
  match v with
  | VStr s => s
  | VBool true => "True"
  | VBool false => "False"
  end.

(** ** Parsed JSON

    What [response.json()] and a dict literal of the notebooks hold. A dict
    is its list of items in insertion order; [assoc] reads the first item of
    a key. JSON numbers are the integers (no float takes part in the code). *)

#[warnings="-register-all"]
Inductive Json :=
| JNull
| JBool (b : bool)
| JInt (n : Z)
| JStr (s : string)
| JList (l : list Json)
| JObj (items : list (string * Json)).

Fixpoint assoc {A} (k : string) (items : list (string * A)) : option A :=
  match items with
  | [] => None
  | (k', v) :: r => if String.eqb k k' then Some v else assoc k r
  end.

(** [type(v).__name__] *)
Definition type_name (v : Json) : string :=
  match v with
  | JNull => "NoneType"
  | JBool _ => "bool"
  | JInt _ => "int"
  | JStr _ => "str"
  | JList _ => "list"
  | JObj _ => "dict"
  end.

Definition json_truthy (v : Json) : bool :=
  match v with
  | JNull => false
  | JBool b => b
  | JInt n => negb (n =? 0)%Z
  | JStr s => negb (PyStr.is_empty s)
  | JList l => match l with [] => false | _ => true end
  | JObj items => match items with [] => false | _ => true end
  end.

(** The exceptions the interpreter raises on the operations used below, with
    the messages of CPython 3.12 (the kernel the notebook records). *)
Definition KeyError (key_repr : string) : PyExc := mkExc "KeyError" key_repr.
Definition AttributeError (ty attr : string) : PyExc :=
  mkExc "AttributeError"
    ("'" +:+ ty +:+ "' object has no attribute '" +:+ attr +:+ "'").
Definition TypeError (msg : string) : PyExc := mkExc "TypeError" msg.
Definition IndexError (msg : string) : PyExc := mkExc "IndexError" msg.
Definition not_subscriptable (v : Json) : PyExc :=
  TypeError ("'" +:+ type_name v +:+ "' object is not subscriptable").

(** [repr] of a [str] key free of quotes and escapes, as in [KeyError('k')]. *)
Definition quoted (k : string) : string := "'" +:+ k +:+ "'".

(** [d.get(k, default)] *)
Definition json_get (d : Json) (k : string) (default : Json) : Result Json :=
  match d with
  | JObj items => Ok (match assoc k items with Some v => v | None => default end)
  | _ => Raise (AttributeError (type_name d) "get")
  end.

(** [v[0]] *)
Definition json_first (v : Json) : Result Json :=
  match v with
  | JList (x :: _) => Ok x
  | JList [] => Raise (IndexError "list index out of range")
  | JStr (String c _) => Ok (JStr (String c ""))
  | JStr EmptyString => Raise (IndexError "string index out of range")
  | JObj _ => Raise (KeyError "0")
  | _ => Raise (not_subscriptable v)
  end.

(** [v[k]] for a [str] key [k] *)
Definition json_item (v : Json) (k : string) : Result Json :=
  match v with
  | JObj items =>
      match assoc k items with
      | Some x => Ok x
      | None => Raise (KeyError (quoted k))
      end
  | JList _ =>
      Raise (TypeError "list indices must be integers or slices, not str")
  | JStr _ => Raise (TypeError "string indices must be integers, not 'str'")
  | _ => Raise (not_subscriptable v)
  end.

(** [v[:n]] *)
Definition json_slice_to (n : nat) (v : Json) : Result Json :=
  match v with
  | JStr s => Ok (JStr (PyStr.slice_to n s))
  | JList l => Ok (JList (take n l))
  | JObj _ => Raise (KeyError ("slice(None, " +:+ PyStr.of_int (Z.of_nat n) +:+ ", None)"))
  | _ => Raise (not_subscriptable v)
  end.

(** [json.dumps(v)] with its defaults: [", "] and [": "] separators and
    [ensure_ascii], which escapes everything outside the range SPACE to
    TILDE, the double quote and the backslash. *)
Definition hex_digit (n : nat) : string :=
  match n with
  | 0 => "0" | 1 => "1" | 2 => "2" | 3 => "3" | 4 => "4" | 5 => "5"
  | 6 => "6" | 7 => "7" | 8 => "8" | 9 => "9" | 10 => "a" | 11 => "b"
  | 12 => "c" | 13 => "d" | 14 => "e" | _ => "f"
  end.

Definition json_escape_char (c : ascii) : string :=
  let n := nat_of_ascii c in
  if n =? 34 then "\" +:+ PyStr.dq
  else if n =? 92 then "\\"
  else if n =? 8 then "\b"
  else if n =? 9 then "\t"
  else if n =? 10 then "\n"
  else if n =? 12 then "\f"
  else if n =? 13 then "\r"
  else if (32 <=? n) && (n <=? 126) then String c ""
  else "\u00" +:+ hex_digit (n / 16) +:+ hex_digit (n mod 16).

Fixpoint json_escape (s : string) : string :=
  match s with
  | EmptyString => EmptyString
  | String c r => json_escape_char c +:+ json_escape r
  end.

Definition json_quote (s : string) : string :=
  PyStr.dq +:+ json_escape s +:+ PyStr.dq.

Fixpoint json_dumps (v : Json) : string :=
  match v with
  | JNull => "null"
  | JBool true => "true"
  | JBool false => "false"
  | JInt n => PyStr.of_int n
  | JStr s => json_quote s
  | JList l =>
      "[" +:+
      (fix elems (l : list Json) : string :=
         match l with
         | [] => ""
         | x :: r =>
             json_dumps x +:+ match r with [] => "" | _ => ", " +:+ elems r end
         end) l +:+ "]"
  | JObj items =>
      "{" +:+
      (fix members (items : list (string * Json)) : string :=
         match items with
         | [] => ""
         | (k, x) :: r =>
             json_quote k +:+ ": " +:+ json_dumps x +:+
             match r with [] => "" | _ => ", " +:+ members r end
         end) items +:+ "}"
  end.

(** ** The hosted services and the event log *)

Record HttpResponse := mkResponse {
  status_code : Z;
  (** [response.json()]: the parsed body, or the decoding error it raises *)
  json : Result Json
}.

(** What Playwright reports of the remote browser after [connect_over_cdp]:
    per context, the URLs of its service workers and its open pages. *)
Record BrowserContext := mkContext {
  service_workers : list string;
  pages : list nat
}.

Record Browser := mkBrowser { contexts : list BrowserContext }.

(** One entry per call that leaves the process. The last three constructors
    are the Playwright page actions that touch a form field. *)
Inductive Event :=
| LLMInvoke (prompt : string)
| HttpGet (url : string) (params : list (string * Json))
| HttpPost (url : string) (body : Json) (headers : list (string * string))
| CdpConnect (endpoint : Json)
| NewPage
| PageGoto (page : nat) (url : string)
| WorkerEvaluate (worker_url : string) (expression : string)
| PageFill (page : nat) (selector value : string)
| PageClick (page : nat) (selector : string)
| PageSelectOption (page : nat) (selector value : string).

Definition is_llm_call (e : Event) : bool :=
  match e with LLMInvoke _ => true | _ => false end.
Definition is_http_get (e : Event) : bool :=
  match e with HttpGet _ _ => true | _ => false end.

Definition count (p : Event -> bool) (log : list Event) : nat :=
  length (filter (fun e => p e = true) log).

(** The outside world. Every oracle sees the log of the calls made so far, so
    a service may answer the same request differently over time. *)
Record World := mkWorld {
  (** [llm.invoke([SystemMessage(content=prompt)]).content] *)
  llm_invoke : list Event -> string -> Result string;
  (** [requests.get(url, params=params, timeout=10)] *)
  requests_get : list Event -> string -> list (string * Json) -> Result HttpResponse;
  (** [requests.post(url, json=body, headers=headers)] *)
  requests_post :
    list Event -> string -> Json -> list (string * string) -> Result HttpResponse;
  (** [playwright.chromium.connect_over_cdp(endpoint)] *)
  connect_over_cdp : list Event -> Json -> Result Browser;
  (** [context.new_page()] *)
  new_page : list Event -> Result nat;
  (** [page.goto(url)] *)
  page_goto : list Event -> nat -> string -> Result unit;
  (** [worker.evaluate(expression)] *)
  worker_evaluate : list Event -> string -> string -> Result Json;
  (** the interpreter's [str()] of a list, which an f-string field renders *)
  str_of_list : list Json -> string
}.

(** ** Computations: a log-passing monad with exceptions *)

Definition M (A : Type) : Type := list Event -> Result A * list Event.

Definition ret {A} (a : A) : M A := fun log => (Ok a, log).

Definition raise {A} (e : PyExc) : M A := fun log => (Raise e, log).

Definition bind {A B} (m : M A) (k : A -> M B) : M B :=
  fun log =>
    match m log with
    | (Ok a, log') => k a log'
    | (Raise e, log') => (Raise e, log')
    end.

(** [try: m except Exception as e: h(e)] *)
Definition try_except {A} (m : M A) (h : PyExc -> M A) : M A :=
  fun log =>
    match m log with
    | (Ok a, log') => (Ok a, log')
    | (Raise e, log') => h e log'
    end.

Definition lift {A} (r : Result A) : M A := fun log => (r, log).

(** A call to a service: the oracle answers on the log so far, and the call
    is recorded whether it returns or raises. *)
Definition call {A} (e : Event) (oracle : list Event -> Result A) : M A :=
  fun log => (oracle log, log ++ [e]).

(** stdpp's monad notation: [x ← m; k] is [bind m (fun x => k)]. *)
#[global] Instance M_ret : MRet M := @ret.
#[global] Instance M_bind : MBind M := fun A B k m => bind m k.

(** The same notation on [Result], for code that raises but calls nothing. *)
#[global] Instance Result_ret : MRet Result := @Ok.
#[global] Instance Result_bind : MBind Result := fun A B k r =>
  match r with
  | Ok a => k a
  | Raise e => Raise e
  end.

(** ** The agent state of the first notebook

    [AgentState] is a [TypedDict]: a plain dict at run time, whose declared
    keys and types are those of [AgentState_schema]. *)

Inductive PyType := TStr | TBool.

Definition AgentState_schema : list (string * PyType) :=
  [ ("user_question", TStr);
    ("needs_search", TBool);
    ("search_result", TStr);
    ("final_answer", TStr);
    ("reasoning", TStr) ].

Definition has_type (v : PyVal) (t : PyType) : bool :=
  match v, t with
  | VStr _, TStr => true
  | VBool _, TBool => true
  | _, _ => false
  end.

Abbreviation State := (gmap string PyVal).

(** A dict that is an [AgentState]: exactly the declared keys, each holding a
    value of its declared type. *)
Definition conforms (state : State) : Prop :=
  forall k : string,
    match assoc k AgentState_schema with
    | Some t => exists v, state !! k = Some v /\ has_type v t = true
    | None => state !! k = None
    end.

(** [state[k]] *)
Definition getitem (state : State) (k : string) : Result PyVal :=
  match state !! k with
  | Some v => Ok v
  | None => Raise (KeyError (quoted k))
  end.

(** [l[i]] on a list *)
Definition list_getitem {A} (l : list A) (i : nat) : Result A :=
  match l !! i with
  | Some x => Ok x
  | None => Raise (IndexError "list index out of range")
  end.

(** ** Notebook 1: the observable research assistant *)

Section Agent.

Context (w : World).

(** [llm.invoke([SystemMessage(content=prompt)])], then [.content] *)
Definition llm_call (prompt : string) : M string :=
  call (LLMInvoke prompt) (fun log => llm_invoke w log prompt).

(** [requests.get(url, params=params, timeout=10)] *)
Definition http_get (url : string) (params : list (string * Json)) : M HttpResponse :=
  call (HttpGet url params) (fun log => requests_get w log url params).

(** *** The search tool *)

Definition search_url : string := "https://en.wikipedia.org/w/api.php".

Definition search_params (query : string) : list (string * Json) :=
  [ ("action", JStr "query");
    ("list", JStr "search");
    ("srsearch", JStr query);
    ("format", JStr "json");
    ("srlimit", JInt 3) ].

(** [page_title.replace(' ', '_')] *)
Definition title_replace (page_title : Json) : Result string :=
  match page_title with
  | JStr t => Ok (PyStr.replace " " "_" t)
  | _ => Raise (AttributeError (type_name page_title) "replace")
  end.

Definition summary_url (underscored_title : string) : string :=
  "https://en.wikipedia.org/api/rest_v1/page/summary/" +:+ underscored_title.

(** An f-string field holding a parsed JSON value that is a [str] or a list
    (the only values that reach one below). *)
Definition json_format (v : Json) : string :=
  match v with
  | JStr s => s
  | JList l => str_of_list w l
  | _ => ""
  end.

(** [data = response.json()], then [data.get('query', {}).get('search', [])] *)
Definition search_results_of (response : HttpResponse) : Result Json :=
  data ← json response;
  found ← json_get data "query" (JObj []);
  json_get found "search" (JList []).

(** [top_result = search_results[0]], then [top_result['title']] *)
Definition page_title_of (search_results : Json) : Result Json :=
  top_result ← json_first search_results;
  json_item top_result "title".

(** [summary_data = summary_response.json()], then
    [summary_data.get('extract', 'No summary available')] *)
Definition extract_of (summary_response : HttpResponse) : Result Json :=
  summary_data ← json summary_response;
  json_get summary_data "extract" (JStr "No summary available").

(** The two requests of the tool. *)
Definition first_get (query : string) : Event :=
  HttpGet search_url (search_params query).

Definition second_get (title : string) : Event :=
  HttpGet (summary_url (PyStr.replace " " "_" title)) [].

(** The [try] block of [wikipedia_search]. *)
Definition wikipedia_search_body (query : string) : M string :=
  response ← http_get search_url (search_params query);
  if (status_code response =? 200)%Z then
    search_results ← lift (search_results_of response);
    if json_truthy search_results then
      page_title ← lift (page_title_of search_results);
      underscored ← lift (title_replace page_title);
      summary_response ← http_get (summary_url underscored) [];
      if (status_code summary_response =? 200)%Z then
        extract ← lift (extract_of summary_response);
        shown ← lift (json_slice_to 400 extract);
        mret ("Found information about '" +:+ json_format page_title +:+ "': "
              +:+ json_format shown +:+ "...")
      else
        mret ("Found '" +:+ json_format page_title
              +:+ "' but couldn't retrieve summary")
    else
      mret ("No Wikipedia articles found for '" +:+ query +:+ "'")
  else
    mret ("Wikipedia search failed with status "
          +:+ PyStr.of_int (status_code response)).

(** [wikipedia_search]: the body under its [except Exception as e]. *)
Definition wikipedia_search (query : string) : M string :=
  try_except (wikipedia_search_body query)
    (fun e => mret ("Search error: " +:+ exc_str e)).

(** [wikipedia_search.invoke({"query": arg})]: the tool wrapper validates
    the argument against the signature [query: str] before the call. The
    message kept here is the one line of the validation error that names
    the fault, not the whole multi-line text of [str(e)]. *)
Definition wikipedia_search_invoke (arg : PyVal) : M string :=
  match arg with
  | VStr query => wikipedia_search query
  | VBool _ =>
      raise (mkExc "ValidationError" "Input should be a valid string")
  end.

(** *** Step 1: decide *)

Definition decision_prompt (user_question : PyVal) : string :=
  PyStr.nl +:+
  "    Analyze this question and decide if it requires current/recent information that might not be in your training data:" +:+ PyStr.nl +:+
  "    " +:+ PyStr.nl +:+
  "    Question: " +:+ PyStr.dq +:+ py_format user_question +:+ PyStr.dq +:+ PyStr.nl +:+
  "    " +:+ PyStr.nl +:+
  "    Consider:" +:+ PyStr.nl +:+
  "    - Does this ask about recent events, current prices, or breaking news?" +:+ PyStr.nl +:+
  "    - Does this ask about people, companies, or topics that change frequently?" +:+ PyStr.nl +:+
  "    - Can you answer this well using your existing knowledge?" +:+ PyStr.nl +:+
  "    " +:+ PyStr.nl +:+
  "    Respond with exactly " +:+ PyStr.dq +:+ "SEARCH" +:+ PyStr.dq +:+
  " if you need current information, or " +:+ PyStr.dq +:+ "DIRECT" +:+ PyStr.dq +:+
  " if you can answer directly." +:+ PyStr.nl +:+
  "    Then on a new line, briefly explain your reasoning." +:+ PyStr.nl +:+
  "    ".

(** The parse of the model's answer: [(decision, reasoning)]. *)
Definition parse_decision (content : string) : Result (string * string) :=
  let decision_text := PyStr.strip content in
  let lines := PyStr.split "010" decision_text in
  match list_getitem lines 0 with
  | Raise e => Raise e
  | Ok first =>
      let decision := PyStr.strip first in
      match (if 1 <? length lines then list_getitem lines 1
             else Ok "No reasoning provided") with
      | Raise e => Raise e
      | Ok reasoning => Ok (decision, reasoning)
      end
  end.

Definition decide_search_need (state : State) : M State :=
  user_question ← lift (getitem state "user_question");
  content ← llm_call (decision_prompt user_question);
  '(decision, reasoning) ← lift (parse_decision content);
  let state := <["needs_search" := VBool (String.eqb decision "SEARCH")]> state in
  let state :=
    <["reasoning" := VStr ("Decision: " +:+ decision +:+ ". Reasoning: "
                           +:+ reasoning)]> state in
  mret state.

(** *** Step 2: search *)

Definition execute_search (state : State) : M State :=
  needs_search ← lift (getitem state "needs_search");
  if negb (truthy needs_search) then
    mret (<["search_result" := VStr "No search performed"]> state)
  else
    user_question ← lift (getitem state "user_question");
    search_result ← wikipedia_search_invoke user_question;
    mret (<["search_result" := VStr search_result]> state).

(** *** Step 3: respond *)

Definition context_text (user_question : PyVal) (search_result : string) : string :=
  "Question: " +:+ py_format user_question +:+ PyStr.nl +:+ PyStr.nl
  +:+ "Search Results: " +:+ search_result.

Definition search_response_prompt (user_question : PyVal) (search_result : string) : string :=
  PyStr.nl +:+
  "        Answer the user's question using both your knowledge and the search results provided." +:+ PyStr.nl +:+
  "        " +:+ PyStr.nl +:+
  "        " +:+ context_text user_question search_result +:+ PyStr.nl +:+
  "        " +:+ PyStr.nl +:+
  "        Provide a helpful, accurate response that synthesizes the information." +:+ PyStr.nl +:+
  "        ".

Definition direct_response_prompt (user_question : PyVal) : string :=
  PyStr.nl +:+
  "        Answer this question using your existing knowledge:" +:+ PyStr.nl +:+
  "        " +:+ PyStr.nl +:+
  "        " +:+ py_format user_question +:+ PyStr.nl +:+
  "        " +:+ PyStr.nl +:+
  "        Provide a helpful, accurate response." +:+ PyStr.nl +:+
  "        ".

(** ["Search error" not in search_result] *)
Definition no_search_error (search_result : PyVal) : Result bool :=
  match search_result with
  | VStr s => Ok (negb (PyStr.contains "Search error" s))
  | VBool _ => Raise (TypeError "argument of type 'bool' is not iterable")
  end.

(** The prompt of [generate_response], from the three values it reads. *)
Definition response_prompt (user_question search_result used_search : PyVal)
  : Result string :=
  match (if truthy used_search then no_search_error search_result
         else Ok false) with
  | Raise e => Raise e
  | Ok true =>
      Ok (search_response_prompt user_question (py_format search_result))
  | Ok false => Ok (direct_response_prompt user_question)
  end.

Definition generate_response (state : State) : M State :=
  user_question ← lift (getitem state "user_question");
  let search_result := default (VStr "") (state !! "search_result") in
  used_search ← lift (getitem state "needs_search");
  prompt ← lift (response_prompt user_question search_result used_search);
  content ← llm_call prompt;
  mret (<["final_answer" := VStr content]> state).

(** *** The workflow graph

    [StateGraph] is the builder of the orchestration library: named nodes,
    directed edges and an entry point. The compiled graph runs the entry
    node, hands the state a node returns to the node its edge points to, and
    stops at [END], at a raising node, or at the recursion limit (25 steps
    by default). Every node of this notebook has one outgoing edge.
    [run_from] and [invoke] hand the dict over as it is, which is what the
    compiled graph does on a dict whose keys are keys of [AgentState]; the
    channels that drop any other key are modelled by [run_channels] and
    [invoke_channels] further down. *)

Record StateGraph := mkGraph {
  graph_nodes : list (string * (State -> M State));
  graph_edges : list (string * string);
  graph_entry : option string
}.

Definition END : string := "__end__".

Definition new_graph : StateGraph := mkGraph [] [] None.

Definition add_node (name : string) (action : State -> M State)
  (g : StateGraph) : StateGraph :=
  mkGraph (graph_nodes g ++ [(name, action)]) (graph_edges g) (graph_entry g).

Definition add_edge (src dst : string) (g : StateGraph) : StateGraph :=
  mkGraph (graph_nodes g) (graph_edges g ++ [(src, dst)]) (graph_entry g).

Definition set_entry_point (name : string) (g : StateGraph) : StateGraph :=
  mkGraph (graph_nodes g) (graph_edges g) (Some name).

(** The outcome of one invocation: the final state or the exception, the
    nodes that were started, in order, and the event log. *)
Record Run := mkRun {
  outcome : Result State;
  visited : list string;
  run_log : list Event
}.

Definition recursion_limit : nat := 25.

Fixpoint run_from (limit : nat) (g : StateGraph) (node : string)
  (state : State) (seen : list string) (log : list Event) : Run :=
  if String.eqb node END then mkRun (Ok state) seen log
  else
    match limit with
    | O =>
        mkRun (Raise (mkExc "GraphRecursionError" "Recursion limit reached"))
          seen log
    | S limit' =>
        match assoc node (graph_nodes g) with
        | None => mkRun (Raise (mkExc "ValueError" "unknown node")) seen log
        | Some action =>
            match action state log with
            | (Raise e, log') => mkRun (Raise e) (seen ++ [node]) log'
            | (Ok state', log') =>
                match assoc node (graph_edges g) with
                | Some next =>
                    run_from limit' g next state' (seen ++ [node]) log'
                | None => mkRun (Ok state') (seen ++ [node]) log'
                end
            end
        end
    end.

(** [graph.compile().invoke(state)] *)
Definition invoke (g : StateGraph) (state : State) (log : list Event) : Run :=
  match graph_entry g with
  | Some entry => run_from recursion_limit g entry state [] log
  | None => mkRun (Raise (mkExc "ValueError" "no entry point")) [] log
  end.

(** The builder calls of the notebook, in source order. *)
Definition workflow : StateGraph :=
  foldl (fun g step => step g) new_graph
    [ add_node "decide" decide_search_need;
      add_node "search" execute_search;
      add_node "respond" generate_response;
      set_entry_point "decide";
      add_edge "decide" "search";
      add_edge "search" "respond";
      add_edge "respond" END ].

Definition simple_agent : State -> list Event -> Run := invoke workflow.


(** The [initial_state] that [run_test_with_observability] builds. *)
Definition initial_state (question : string) : State :=
  <["user_question" := VStr question]>
  (<["needs_search" := VBool false]>
  (<["search_result" := VStr ""]>
  (<["final_answer" := VStr ""]>
  (<["reasoning" := VStr ""]> ∅)))).

End Agent.

(** ** Notebook 2: form filling through the Anchor browser agent *)

Section Anchor.

Context (w : World).

Definition sessions_url : string := "https://api.anchorbrowser.io/v1/sessions".

Definition payload : Json :=
  JObj [ ("session", JObj [
    ("timeout", JObj [ ("max_duration", JInt 4); ("idle_timeout", JInt 2) ]);
    ("browser", JObj [
       ("viewport", JObj [ ("width", JInt 1920); ("height", JInt 1080) ]) ]);
    ("recording", JObj [ ("enabled", JBool true); ("video", JBool true) ]) ]) ].

Definition headers : list (string * string) :=
  [ ("anchor-api-key", "<ANCHOR-API-KEY>");
    ("Content-Type", "application/json") ].

(** The session cell: returns [(connection_string, session_id)]. The slice
    [connection_string[:50]] is evaluated for the print that follows. *)
Definition create_session : M (Json * Json) :=
  response ← call (HttpPost sessions_url payload headers)
               (fun log => requests_post w log sessions_url payload headers);
  session_data ← lift (json response);
  data ← lift (json_item session_data "data");
  connection_string ← lift (json_item data "cdp_url");
  data' ← lift (json_item session_data "data");
  session_id ← lift (json_item data' "id");
  _ ← lift (json_slice_to 50 connection_string);
  mret (connection_string, session_id).

Definition ai_agent_url : string :=
  "chrome-extension://bppehibnhionalpjigdjdilknbljaeai/background.js".

Definition resume_url : string := "https://www.wix.com/demone2/nicol-rider".

Definition task_prompt : string :=
  "Read the resume on this page, understand the personal details, "
  +:+ "and complete the form at https://formspree.io/library/donation/charity-donation-form/preview.html "
  +:+ "as if you were this person. Use appropriate information from the resume "
  +:+ "to fill out personal details. Limit the donation amount to $10.".

Definition task_configuration : Json :=
  JObj [ ("prompt", JStr task_prompt);
         ("provider", JStr "openai");
         ("model", JStr "gpt-4");
         ("highlight_elements", JBool true) ].

(** [next((sw for sw in workers if sw.url == url), None)] *)
Definition find_worker (url : string) (workers : list string) : option string :=
  List.find (fun sw => String.eqb sw url) workers.

(** The form-completion cell. *)
Definition complete_form (connection_string : Json) : M Json :=
  browser ← call (CdpConnect connection_string)
              (fun log => connect_over_cdp w log connection_string);
  context ← lift (list_getitem (contexts browser) 0);
  match find_worker ai_agent_url (service_workers context) with
  | None => raise (mkExc "Exception" "AI agent not found in browser context")
  | Some ai_agent =>
      page ← match pages context with
             | p :: _ => mret p
             | [] => call NewPage (new_page w)
             end;
      _ ← call (PageGoto page resume_url)
            (fun log => page_goto w log page resume_url);
      call (WorkerEvaluate ai_agent (json_dumps task_configuration))
        (fun log => worker_evaluate w log ai_agent (json_dumps task_configuration))
  end.

(** The two calls the notebook is about. *)
Definition session_post : Event := HttpPost sessions_url payload headers.

Definition task_submission : Event :=
  WorkerEvaluate ai_agent_url (json_dumps task_configuration).

(** The two cells run in order; the second needs the first to complete. *)
Definition notebook : M Json :=
  '(connection_string, _) ← create_session;
  complete_form connection_string.

End Anchor.

(** ** Scripted worlds

    A world that answers the n-th LLM call and the n-th GET from a script,
    and the POST, the CDP connection and the agent's evaluation with fixed
    outcomes. A call beyond the script raises. *)

Definition off_script {A} : Result A := Raise (mkExc "RuntimeError" "off script").

Definition scripted (llm : list (Result string))
  (gets : list (Result HttpResponse)) (post : Result HttpResponse)
  (browser : Result Browser) : World :=
  {| llm_invoke := fun log _ => nth (count is_llm_call log) llm off_script;
     requests_get := fun log _ _ => nth (count is_http_get log) gets off_script;
     requests_post := fun _ _ _ _ => post;
     connect_over_cdp := fun _ _ => browser;
     new_page := fun _ => Ok 0;
     page_goto := fun _ _ _ => Ok tt;
     worker_evaluate := fun _ _ _ => Ok (JStr "done");
     str_of_list := fun _ => "[...]" |}.

Definition agent_world (llm : list (Result string))
  (gets : list (Result HttpResponse)) : World :=
  scripted llm gets off_script off_script.

Definition json_response (status : Z) (body : Json) : Result HttpResponse :=
  Ok (mkResponse status (Ok body)).

Definition search_hit (title : string) : Json :=
  JObj [ ("query", JObj [ ("search", JList [ JObj [ ("title", JStr title) ] ]) ]) ].

Definition search_miss : Json :=
  JObj [ ("query", JObj [ ("search", JList []) ]) ].

Definition summary_of (extract : string) : Json :=
  JObj [ ("title", JStr "Paris"); ("extract", JStr extract) ].

Definition connection_refused : PyExc :=
  mkExc "ConnectionError" "connection refused".

Definition invalid_api_key : PyExc :=
  mkExc "AuthenticationError" "Incorrect API key provided".

Definition session_created : Result HttpResponse :=
  json_response 200
    (JObj [ ("data", JObj [ ("id", JStr "s-1");
                            ("cdp_url", JStr "wss://connect.anchorbrowser.io?sessionId=s-1") ]) ]).

(** The model answers SEARCH, the search finds a page and its summary. *)
Definition world_hit : World :=
  agent_world
    [ Ok ("SEARCH" +:+ PyStr.nl +:+ "Needs recent data"); Ok "It is in Paris." ]
    [ json_response 200 (search_hit "Eiffel Tower");
      json_response 200 (summary_of "A wrought-iron tower.") ].

(** The model answers DIRECT. *)
Definition world_direct : World :=
  agent_world
    [ Ok ("DIRECT" +:+ PyStr.nl +:+ "Well known"); Ok "Paris." ] [].

(** The model's answer starts with an empty line. *)
Definition world_blank_first_line : World :=
  agent_world [ Ok (PyStr.nl +:+ "SEARCH"); Ok "Paris." ]
    [ json_response 200 search_miss ].

(** The LLM provider rejects the API key. *)
Definition world_llm_down : World :=
  agent_world [ Raise invalid_api_key ] [].

(** Wikipedia cannot be reached. *)
Definition world_http_down : World :=
  agent_world [ Ok "SEARCH"; Ok "Paris." ] [ Raise connection_refused ].

(** The search answers with status 503. *)
Definition world_search_503 : World :=
  agent_world [] [ json_response 503 JNull ].

(** The search finds nothing. *)
Definition world_search_miss : World :=
  agent_world [] [ json_response 200 search_miss ].

(** The search finds a page whose summary answers with status 404. *)
Definition world_summary_404 : World :=
  agent_world []
    [ json_response 200 (search_hit "Eiffel Tower"); json_response 404 JNull ].

(** The summary has no extract. *)
Definition world_no_extract : World :=
  agent_world []
    [ json_response 200 (search_hit "Eiffel Tower");
      json_response 200 (JObj [ ("title", JStr "Eiffel Tower") ]) ].

(** The parse as the specification words it: the response text itself is
    split on newlines, and the first line, stripped, is compared. *)
Definition first_line_is_search (content : string) : bool :=
  match PyStr.split "010" content with
  | first :: _ => String.eqb (PyStr.strip first) "SEARCH"
  | [] => false
  end.

(** The state a node returned, for reading its keys. *)
Definition state_of (r : Result State) : State :=
  match r with
  | Ok state => state
  | Raise _ => ∅
  end.

(** The exception a result raises, if it raises one. *)
Definition error_of {A} (r : Result A) : option PyExc :=
  match r with
  | Ok _ => None
  | Raise e => Some e
  end.

Definition eiffel : string := "Where is the Eiffel Tower?".
Definition france : string := "What is the capital of France?".

(** The search tool is reached with the flag set. *)
Definition flagged (question : string) : State :=
  <["needs_search" := VBool true]> (initial_state question).

Definition with_result (result : string) (state : State) : State :=
  <["search_result" := VStr result]> state.

Definition anchor_world (workers : list string) : World :=
  scripted [] [] session_created
    (Ok (mkBrowser [ mkContext workers [7] ])).

(** ** The state and the log after the decide step

    What [decide_search_need] leaves behind once the model's answer has
    been parsed into a decision and a rationale. *)

Definition after_decide (state : State) (reasoning decision : string) : State :=
  <["reasoning" := VStr ("Decision: " +:+ decision +:+ ". Reasoning: "
                         +:+ reasoning)]>
    (<["needs_search" := VBool (String.eqb decision "SEARCH")]> state).


(** ** The compiled graph, channel by channel

    [StateGraph(AgentState)] compiles to one channel per key of the schema.
    The input dict is written to the channels, so a key outside the schema
    never reaches a node, and an input that writes no channel is refused
    before any node runs; after each node, the schema keys of the dict the
    node returns overwrite their channels. [run_from] above is this executor
    on dicts whose keys are keys of the schema, where the channels hold
    exactly the dict. *)

Definition schema_keys : list string := AgentState_schema.*1.

(** The part of a dict that the channels take. *)
Definition channels (state : State) : State :=
  filter (fun item => item.1 ∈ schema_keys) state.

(** A dict that writes at least one channel and has no other key. *)
Definition in_schema (state : State) : Prop :=
  state <> ∅ /\ forall k, is_Some (state !! k) -> k ∈ schema_keys.

Fixpoint run_channels (limit : nat) (g : StateGraph) (node : string)
  (values : State) (seen : list string) (log : list Event) : Run :=
  if String.eqb node END then mkRun (Ok values) seen log
  else
    match limit with
    | O =>
        mkRun (Raise (mkExc "GraphRecursionError" "Recursion limit reached"))
          seen log
    | S limit' =>
        match assoc node (graph_nodes g) with
        | None => mkRun (Raise (mkExc "ValueError" "unknown node")) seen log
        | Some action =>
            match action values log with
            | (Raise e, log') => mkRun (Raise e) (seen ++ [node]) log'
            | (Ok returned, log') =>
                let values' := channels returned ∪ values in
                match assoc node (graph_edges g) with
                | Some next =>
                    run_channels limit' g next values' (seen ++ [node]) log'
                | None => mkRun (Ok values') (seen ++ [node]) log'
                end
            end
        end
    end.

Definition invoke_channels (g : StateGraph) (state : State)
  (log : list Event) : Run :=
  match graph_entry g with
  | Some entry =>
      if bool_decide (dom (channels state) = (∅ : gset string))
      then mkRun (Raise (mkExc "InvalidUpdateError"
                           "Must write to at least one of ['user_question', 'needs_search', 'search_result', 'final_answer', 'reasoning']"))
             [] log
      else run_channels recursion_limit g entry (channels state) [] log
  | None => mkRun (Raise (mkExc "ValueError" "no entry point")) [] log
  end.

(** [simple_agent] with its channels. *)
Definition compiled_agent (w : World) : State -> list Event -> Run :=
  invoke_channels (workflow w).

(** ** The page the tool asks the summary of

    The tool goes on to the summary request when the search request returns
    status 200, a result list that is not empty, and a top result whose
    title is a [str]; [summary_title] is that title. *)

Definition summary_title (w : World) (query : string) (log : list Event)
  : option string :=
  match requests_get w log search_url (search_params query) with
  | Ok response =>
      if (status_code response =? 200)%Z then
        match search_results_of response with
        | Ok search_results =>
            if json_truthy search_results then
              match page_title_of search_results with
              | Ok (JStr title) => Some title
              | _ => None
              end
            else None
        | Raise _ => None
        end
      else None
  | Raise _ => None
  end.

(** ** Notebook 1, continued: the test runner

    [run_test_with_observability] returns a dict whose values are strings,
    Booleans, a value read from the final state, and one float: the elapsed
    time rounded to two places. The float is kept abstract: [elapsed start
    finish] stands for [round(end_time - start_time, 2)], the two clock
    readings being taken when the log was [start] and [finish]. The dict is
    its list of items in insertion order. *)

Inductive ReportVal (Seconds : Type) :=
| RVal (v : PyVal)
| RSeconds (t : Seconds).
Arguments RVal {Seconds} v.
Arguments RSeconds {Seconds} t.

(** [len(v)] *)
Definition py_len (v : PyVal) : Result nat :=
  match v with
  | VStr s => Ok (String.length s)
  | VBool _ => Raise (TypeError "object of type 'bool' has no len()")
  end.

(** [v[:n]] on a state value *)
Definition py_slice_to (n : nat) (v : PyVal) : Result PyVal :=
  match v with
  | VStr s => Ok (VStr (PyStr.slice_to n s))
  | VBool _ => Raise (TypeError "'bool' object is not subscriptable")
  end.

(** The log at this point of the computation (where a clock is read). *)
Definition current_log : M (list Event) := fun log => (Ok log, log).

Record TestCase := mkCase {
  case_question : string;
  case_type : string;
  expected_search : bool
}.

Definition test_cases : list TestCase :=
  [ mkCase "What is the capital of France?" "direct_answer" false;
    mkCase "What happened in the 2024 US presidential election?" "current_info" true;
    mkCase "Tell me about artificial intelligence" "factual_lookup" false ].

Section TestRunner.

Context (w : World) {Seconds : Type}.
Context (elapsed : list Event -> list Event -> Seconds).

(** [simple_agent.invoke(initial_state, config=config)]; the [config] holds
    tracing metadata and tags only. *)
Definition invoke_agent (state : State) : M State :=
  fun log =>
    let run := simple_agent w state log in (outcome run, run_log run).

Definition success_report (question test_type : string)
  (used_search : PyVal) (total_time : Seconds) (reasoning : PyVal)
  : list (string * ReportVal Seconds) :=
  [ ("question", RVal (VStr question));
    ("type", RVal (VStr test_type));
    ("success", RVal (VBool true));
    ("used_search", RVal used_search);
    ("total_time", RSeconds total_time);
    ("reasoning", RVal reasoning) ].

Definition failure_report (question test_type : string) (e : PyExc)
  : list (string * ReportVal Seconds) :=
  [ ("question", RVal (VStr question));
    ("type", RVal (VStr test_type));
    ("success", RVal (VBool false));
    ("error", RVal (VStr (exc_str e))) ].

(** The [try] block: the invocation, the reads of the final state that the
    result prints make, and the returned dict. *)
Definition run_test_body (question test_type : string) (start : list Event)
  : M (list (string * ReportVal Seconds)) :=
  final_state ← invoke_agent (initial_state question);
  finish ← current_log;
  let total_time := elapsed start finish in
  _ ← lift (getitem final_state "reasoning");
  _ ← lift (getitem final_state "needs_search");
  answer ← lift (getitem final_state "final_answer");
  _ ← lift (py_len answer);
  answer ← lift (getitem final_state "final_answer");
  _ ← lift (py_slice_to 200 answer);
  used_search ← lift (getitem final_state "needs_search");
  reasoning ← lift (getitem final_state "reasoning");
  mret (success_report question test_type used_search total_time reasoning).

Definition run_test_with_observability (question test_type : string)
  : M (list (string * ReportVal Seconds)) :=
  start ← current_log;
  try_except (run_test_body question test_type start)
    (fun e => mret (failure_report question test_type e)).

(** The loop over the test cases: one call per case, results appended in
    order. [time.sleep(1)] between two cases calls no service. *)
Fixpoint run_tests (cases : list TestCase)
  (test_results : list (list (string * ReportVal Seconds)))
  : M (list (list (string * ReportVal Seconds))) :=
  match cases with
  | [] => mret test_results
  | test_case :: rest =>
      result ← run_test_with_observability (case_question test_case)
                 (case_type test_case);
      run_tests rest (test_results ++ [result])
  end.

Definition test_suite : M (list (list (string * ReportVal Seconds))) :=
  run_tests test_cases [].

End TestRunner.

(** A clock that always reads the same time, for concrete runs. *)
Definition frozen_clock : list Event -> list Event -> nat := fun _ _ => 0.

(** Worlds of the session cell: the API answers with a given status and
    body. *)
Definition session_world (status : Z) (body : Json) : World :=
  scripted [] [] (json_response status body)
    (Ok (mkBrowser [ mkContext [ai_agent_url] [] ])).

(** ** More scripted worlds *)

(** The model leaves an empty line between its decision and its reasons. *)
Definition world_blank_second_line : World :=
  agent_world
    [ Ok ("SEARCH" +:+ PyStr.nl +:+ PyStr.nl +:+ "Because the election is recent.");
      Ok "It was held in November." ]
    [ json_response 200 search_miss ].

(** The model pads its answer with blanks and a trailing newline. *)
Definition world_padded : World :=
  agent_world
    [ Ok ("  " +:+ "DIRECT" +:+ PyStr.nl +:+ "Well known" +:+ " " +:+ PyStr.nl);
      Ok "Paris." ] [].

(** The model always answers SEARCH and Wikipedia is never reachable. *)
Definition world_offline : World :=
  {| llm_invoke := fun _ _ => Ok "SEARCH";
     requests_get := fun _ _ _ => Raise connection_refused;
     requests_post := fun _ _ _ _ => off_script;
     connect_over_cdp := fun _ _ => off_script;
     new_page := fun _ => off_script;
     page_goto := fun _ _ _ => off_script;
     worker_evaluate := fun _ _ _ => off_script;
     str_of_list := fun _ => "[...]" |}.


Definition error_question : string := "What does Search error mean?".

Definition session_body : Json :=
  JObj [ ("data", JObj [ ("id", JStr "s-1");
                         ("cdp_url", JStr "wss://connect.anchorbrowser.io?sessionId=s-1") ]) ].

(** ** Worlds for the cut of the extract, a hit without a title and a
    failing navigation *)

(** [c * n]: the character repeated [n] times. *)
Fixpoint repeated (c : ascii) (n : nat) : string :=
  match n with
  | O => EmptyString
  | S k => String c (repeated c k)
  end.

(** The summary's extract has 450 characters. *)
Definition world_long_extract : World :=
  agent_world []
    [ json_response 200 (search_hit "Eiffel Tower");
      json_response 200 (summary_of (repeated "x" 450)) ].



(** The model answers SEARCH and the top result of the search has no
    title. *)
Definition world_hit_without_title : World :=
  agent_world
    [ Ok ("SEARCH" +:+ PyStr.nl +:+ "Needs recent data"); Ok "It is in Paris." ]
    [ json_response 200
        (JObj [ ("query", JObj [ ("search", JList [ JObj [ ("pageid", JInt 7) ] ]) ]) ]) ].


(** * Properties *)

(** ** The string primitives do what their Python names say *)

Module PyStrFacts.
Import PyStr.

#[local] Arguments String.append !_ _ : simpl nomatch.

Lemma append_assoc (a b c : string) : (a +:+ b) +:+ c = a +:+ b +:+ c.
Proof. induction a as [|x a IH]; simpl; [done | by f_equal]. Qed.

Lemma append_empty_r (a : string) : a +:+ "" = a.
Proof. induction a as [|x a IH]; simpl; [done | by f_equal]. Qed.

Lemma chars_append (a b : string) : chars (a +:+ b) = chars a ++ chars b.
Proof. induction a as [|x a IH]; simpl; [done | by f_equal]. Qed.

Example strip_both_ends : strip (" " +:+ nl +:+ "a b " +:+ nl) = "a b".
Proof. reflexivity. Qed.

Example strip_blank : strip ("  " +:+ nl) = "".
Proof. reflexivity. Qed.

Example split_two_newlines :
  split "010" ("a" +:+ nl +:+ nl +:+ "b") = ["a"; ""; "b"].
Proof. reflexivity. Qed.

Example split_empty : split "010" "" = [""].
Proof. reflexivity. Qed.

Example contains_inside : contains "Search error" "x Search error: y" = true.
Proof. reflexivity. Qed.

Example contains_case : contains "Search error" "search error" = false.
Proof. reflexivity. Qed.

Example of_int_negative : of_int (-404) = "-404".
Proof. reflexivity. Qed.

Lemma split_cons (sep : ascii) (s : string) :
  exists first rest, split sep s = first :: rest.
Proof.
  induction s as [|c r [first [rest IH]]]; simpl; [by eauto |].
  destruct (Ascii.eqb c sep); [by eauto |].
  rewrite IH. by eauto.
Qed.

(** No line of a split holds the separator. *)
Lemma split_lines_clean (sep : ascii) (s : string) :
  Forall (fun line => sep ∉ chars line) (split sep s).
Proof.
  induction s as [|c r IH]; simpl.
  - repeat constructor. simpl. by apply not_elem_of_nil.
  - destruct (Ascii.eqb_spec c sep) as [->|Hne].
    + constructor; [simpl; by apply not_elem_of_nil | done].
    + destruct (split_cons sep r) as (first & rest & Hs).
      rewrite Hs in IH |- *. inversion IH as [|? ? Hfirst Hrest]; subst.
      constructor; [|done]. simpl. rewrite elem_of_cons. intros [?|?]; by auto.
Qed.

(** Joining the lines with the separator gives the text back. *)
Lemma join_split (sep : ascii) (s : string) : join sep (split sep s) = s.
Proof.
  induction s as [|c r IH]; simpl; [done |].
  destruct (Ascii.eqb_spec c sep) as [->|Hne].
  - destruct (split_cons sep r) as (first & rest & Hs).
    rewrite Hs in IH |- *. simpl in *. by rewrite IH.
  - destruct (split_cons sep r) as (first & rest & Hs).
    rewrite Hs in IH |- *. destruct rest; simpl in *; by rewrite IH.
Qed.

Lemma startswith_spec (p s : string) :
  startswith p s = true <-> exists r, s = p +:+ r.
Proof.
  revert s. induction p as [|a p IH]; intros s; simpl.
  - split; [by eauto | done].
  - destruct s as [|b s].
    + split; [done | by intros [r Hr]].
    + rewrite andb_true_iff, IH. split.
      * intros [Hab [r ->]]. apply Ascii.eqb_eq in Hab as ->. by eauto.
      * intros [r Hr]. injection Hr as -> ->. split; [apply Ascii.eqb_refl | by eauto].
Qed.

(** [contains] is the substring test. *)
Lemma contains_spec (needle hay : string) :
  contains needle hay = true <-> exists a b, hay = a +:+ needle +:+ b.
Proof.
  induction hay as [|c hay IH].
  - cbn [contains]. rewrite orb_false_r, startswith_spec. split.
    + intros [r Hr]. by exists "", r.
    + intros ([|x a] & b & Hab); [by eauto | done].
  - cbn [contains]. rewrite orb_true_iff, startswith_spec, IH. split.
    + intros [[r Hr] | (a & b & Hab)].
      * by exists "", r.
      * exists (String c a), b. simpl. by rewrite Hab.
    + intros ([|x a] & b & Hab).
      * left. by eauto.
      * right. injection Hab as -> ->. by eauto.
Qed.

Lemma contains_here (a needle b : string) :
  contains needle (a +:+ needle +:+ b) = true.
Proof. apply contains_spec. by eauto. Qed.

Lemma contains_refl (s : string) : contains s s = true.
Proof. apply contains_spec. exists "", "". simpl. by rewrite append_empty_r. Qed.

Lemma contains_append_r (needle a hay : string) :
  contains needle hay = true -> contains needle (a +:+ hay) = true.
Proof.
  rewrite !contains_spec. intros (x & y & ->).
  exists (a +:+ x), y. by rewrite append_assoc.
Qed.

Lemma contains_append_l (needle hay b : string) :
  contains needle hay = true -> contains needle (hay +:+ b) = true.
Proof.
  rewrite !contains_spec. intros (x & y & ->).
  exists x, (y +:+ b). by rewrite !append_assoc.
Qed.

Lemma chars_list (s : string) : chars s = String.list_ascii_of_string s.
Proof. induction s as [|c s IH]; simpl; [done | by rewrite IH]. Qed.

Lemma chars_inj (s t : string) : chars s = chars t -> s = t.
Proof.
  rewrite !chars_list. intros H.
  by rewrite <- (String.string_of_list_ascii_of_string s),
             <- (String.string_of_list_ascii_of_string t), H.
Qed.

Lemma chars_of_list (l : list ascii) :
  chars (String.string_of_list_ascii l) = l.
Proof. rewrite chars_list. apply String.list_ascii_of_string_of_list_ascii. Qed.

(** An occurrence of a needle in a framed text lies in the text, when the
    needle cannot begin in the frame nor run into the closing frame. *)
Lemma infix_framed (c0 : ascii) (tail before text after a b : list ascii) :
  c0 ∉ before ->
  c0 ∉ after ->
  (forall x, head after = Some x -> x ∉ c0 :: tail) ->
  before ++ text ++ after = a ++ (c0 :: tail) ++ b ->
  exists a' b', text = a' ++ (c0 :: tail) ++ b'.
Proof.
  intros Hbefore Hafter Hhead Heq.
  assert (exists k, text ++ after = k ++ (c0 :: tail) ++ b) as [k Hk].
  { apply app_eq_inv in Heq as [(k & -> & Hk) | (k & -> & Hk)]; [| by eauto].
    destruct k as [|x k].
    - exists []. simpl in *. done.
    - simpl in Hk. injection Hk as <- _. exfalso. apply Hbefore.
      rewrite elem_of_app, elem_of_cons. by auto. }
  apply app_eq_inv in Hk as [(k2 & -> & Hk2) | (k2 & -> & Hk2)].
  - apply app_eq_inv in Hk2 as [(k3 & Hn & Hafter') | (k3 & -> & Hb)].
    + destruct k3 as [|x k3].
      * rewrite app_nil_r in Hn. subst k2. exists k, []. by rewrite app_nil_r.
      * exfalso. apply (Hhead x); [by rewrite Hafter' |].
        rewrite Hn, elem_of_app. right. by left.
    + exists k, k3. done.
  - exfalso. apply Hafter. rewrite Hk2.
    rewrite elem_of_app. right. by left.
Qed.

Lemma contains_framed (c0 : ascii) (tail before text after : string) :
  c0 ∉ chars before ->
  c0 ∉ chars after ->
  (forall x, head (chars after) = Some x -> x ∉ chars (String c0 tail)) ->
  contains (String c0 tail) (before +:+ text +:+ after)
  = contains (String c0 tail) text.
Proof.
  intros Hbefore Hafter Hhead.
  destruct (contains (String c0 tail) text) eqn:Htext.
  - apply contains_append_r. by apply contains_append_l.
  - destruct (contains _ (before +:+ _)) eqn:Hframed; [exfalso | done].
    apply contains_spec in Hframed as (a & b & Heq).
    apply (f_equal chars) in Heq. rewrite !chars_append in Heq.
    destruct (infix_framed c0 (chars tail) _ _ _ _ _ Hbefore Hafter Hhead Heq)
      as (a' & b' & Hin).
    assert (contains (String c0 tail) text = true) as Hyes; [| congruence].
    apply contains_spec.
    exists (String.string_of_list_ascii a'), (String.string_of_list_ascii b').
    apply chars_inj. rewrite !chars_append, !chars_of_list. exact Hin.
Qed.

(** A text that holds a needle holds the needle's first character. *)
Lemma contains_first_char (c : ascii) (needle hay : string) :
  contains (String c needle) hay = true -> c ∈ chars hay.
Proof.
  rewrite contains_spec. intros (a & b & ->).
  rewrite chars_append. simpl. rewrite elem_of_app, elem_of_cons. by auto.
Qed.

Lemma slice_to_length (n : nat) (s : string) : String.length (slice_to n s) <= n.
Proof.
  revert s. induction n as [|n IH]; intros [|c s]; simpl; try lia.
  specialize (IH s). lia.
Qed.

Lemma slice_to_prefix (n : nat) (s : string) :
  exists rest, s = slice_to n s +:+ rest.
Proof.
  revert s. induction n as [|n IH]; intros [|c s]; simpl; try by eauto.
  destruct (IH s) as [rest Hr]. exists rest. by rewrite <- Hr.
Qed.

(** [s[:n]] is the first [n] characters of [s]. *)
Lemma slice_to_take (n : nat) (s : string) :
  chars (slice_to n s) = take n (chars s).
Proof.
  revert s. induction n as [|n IH]; intros [|c s]; simpl; try done.
  by rewrite IH.
Qed.

Lemma slice_to_length_min (n : nat) (s : string) :
  String.length (slice_to n s) = Nat.min n (String.length s).
Proof.
  revert s. induction n as [|n IH]; intros [|c s]; simpl; try done.
  by rewrite IH.
Qed.

Lemma slice_to_all (n : nat) (s : string) :
  String.length s <= n -> slice_to n s = s.
Proof.
  revert s. induction n as [|n IH]; intros [|c s]; simpl; try done; try lia.
  intros Hl. rewrite IH; [done | lia].
Qed.

(** [lstrip] and [rstrip] remove white space only, and all of it. *)
Lemma lstrip_decompose (s : string) :
  exists a, s = a +:+ lstrip s /\ Forall (fun c => is_space c = true) (chars a).
Proof.
  induction s as [|c s (a & Ha & Hsp)]; simpl.
  - exists "". by split; [|constructor].
  - destruct (is_space c) eqn:Hc.
    + exists (String c a). simpl. split; [by rewrite <- Ha | by constructor].
    + exists "". by split; [|constructor].
Qed.

Lemma rstrip_decompose (s : string) :
  exists b, s = rstrip s +:+ b /\ Forall (fun c => is_space c = true) (chars b).
Proof.
  induction s as [|c s (b & Hb & Hsp)]; simpl.
  - exists "". by split; [|constructor].
  - destruct (is_space c) eqn:Hc; simpl.
    + destruct (rstrip s) eqn:Hr; simpl in *.
      * exists (String c b). subst s. split; [done | by constructor].
      * exists b. split; [by rewrite <- Hb | done].
    + exists b. split; [by rewrite <- Hb | done].
Qed.

Lemma strip_decompose (s : string) :
  exists a b, s = a +:+ strip s +:+ b
    /\ Forall (fun c => is_space c = true) (chars a)
    /\ Forall (fun c => is_space c = true) (chars b).
Proof.
  destruct (lstrip_decompose s) as (a & Ha & Hsa).
  destruct (rstrip_decompose (lstrip s)) as (b & Hb & Hsb).
  exists a, b. unfold strip. by rewrite <- Hb.
Qed.

Lemma lstrip_head (s : string) (c : ascii) (r : string) :
  lstrip s = String c r -> is_space c = false.
Proof.
  induction s as [|x s IH]; simpl; [done |].
  destruct (is_space x) eqn:Hx; [done |]. by intros [= <- _].
Qed.

(** The decimal rendering of an integer holds digits and a minus sign. *)
Lemma string_of_uint_digits (d : uint) :
  Forall (fun c => digit_or_minus c = true) (chars (NilEmpty.string_of_uint d)).
Proof. induction d; simpl; by constructor. Qed.

Lemma of_int_digits (n : Z) :
  Forall (fun c => digit_or_minus c = true) (chars (of_int n)).
Proof.
  unfold of_int, NilZero.string_of_int, NilZero.string_of_uint.
  destruct (Z.to_int n) as [d|d].
  - destruct d; simpl; try (constructor; [done | apply string_of_uint_digits]).
    by repeat constructor.
  - simpl. constructor; [done |].
    destruct d; simpl; try (constructor; [done | apply string_of_uint_digits]).
    by repeat constructor.
Qed.

End PyStrFacts.

(** ** The log-passing monad *)

Ltac run_m :=
  unfold mbind, M_bind, mret, M_ret, bind, ret, lift, call, raise, try_except
    in *.

(** Split on the next [Result] (or pair, or Boolean test) the goal branches on. *)
Ltac next_case :=
  match goal with
  | |- context [match ?x with Ok _ => _ | Raise _ => _ end] => destruct x eqn:?
  | |- context [match ?x with (_, _) => _ end] => destruct x eqn:?
  | |- context [if ?b then _ else _] => destruct b eqn:?
  end.

Lemma count_app (p : Event -> bool) (a b : list Event) :
  count p (a ++ b) = count p a + count p b.
Proof. unfold count. by rewrite filter_app, length_app. Qed.

Lemma count_cons (p : Event -> bool) (e : Event) (l : list Event) :
  count p (e :: l) = (if p e then 1 else 0) + count p l.
Proof.
  unfold count. rewrite filter_cons. by destruct (p e).
Qed.

Lemma count_nil (p : Event -> bool) : count p [] = 0.
Proof. done. Qed.

(** Close the routine facts about an explicit list of calls. *)
Ltac calls_facts :=
  split_and!;
  rewrite ?count_app, ?count_cons, ?count_nil; simpl;
  try done; try lia; try (by repeat constructor).

(** ** The search tool *)

Section SearchFacts.

Context (w : World).

(** The handler turns whatever the body raises into a string. *)
Lemma wikipedia_search_catch (query : string) (log : list Event) :
  wikipedia_search w query log =
  (Ok (match (wikipedia_search_body w query log).1 with
       | Ok s => s
       | Raise e => "Search error: " +:+ exc_str e
       end),
   (wikipedia_search_body w query log).2).
Proof.
  unfold wikipedia_search. run_m.
  by destruct (wikipedia_search_body w query log) as [[s|e] log'].
Qed.

(** The body issues the search request, and at most the summary request
    after it. *)
Lemma wikipedia_search_body_log (query : string) (log : list Event) :
  (wikipedia_search_body w query log).2 = log ++ [first_get query]
  \/ exists title,
       (wikipedia_search_body w query log).2
       = log ++ [first_get query; second_get title].
Proof.
  unfold wikipedia_search_body, http_get. run_m. simpl.
  repeat (next_case; simpl; try (by left)).
  all: match goal with
       | H : title_replace ?t = Ok _ |- _ =>
           destruct t; simplify_eq/=; right; eexists;
           by rewrite <- app_assoc
       end.
Qed.

(** The body issues the summary request exactly after a hit with a title. *)
Lemma wikipedia_search_body_calls (query : string) (log : list Event) :
  (wikipedia_search_body w query log).2
  = log ++ first_get query
           :: match summary_title w query log with
              | Some title => [second_get title]
              | None => []
              end.
Proof.
  unfold wikipedia_search_body, http_get, summary_title, first_get, second_get.
  run_m. simpl.
  destruct (requests_get w log search_url (search_params query)) as [r|e];
    simpl; [| done].
  destruct (status_code r =? 200)%Z; simpl; [| done].
  destruct (search_results_of r) as [results|e]; simpl; [| done].
  destruct (json_truthy results); simpl; [| done].
  destruct (page_title_of results) as [[| | |title| |]|e]; simpl; try done.
  destruct (requests_get w _ _ []) as [r2|e]; simpl;
    [| by rewrite <- app_assoc].
  destruct (status_code r2 =? 200)%Z; simpl; [| by rewrite <- app_assoc].
  destruct (extract_of r2) as [extract|e]; simpl; [| by rewrite <- app_assoc].
  destruct (json_slice_to 400 extract); simpl; by rewrite <- app_assoc.
Qed.

(** [execute_search] on a state whose flag is set stores what the tool
    returns. *)
Lemma execute_search_stores (state : State) (log : list Event)
    (needs_search : PyVal) (query : string) :
  state !! "needs_search" = Some needs_search ->
  truthy needs_search = true ->
  state !! "user_question" = Some (VStr query) ->
  execute_search w state log =
  (Ok (<["search_result" :=
          VStr (match (wikipedia_search_body w query log).1 with
                | Ok s => s
                | Raise e => "Search error: " +:+ exc_str e
                end)]> state),
   (wikipedia_search_body w query log).2).
Proof.
  intros Hflag Htrue Hq. unfold execute_search, getitem. run_m.
  rewrite Hflag, Htrue, Hq. simpl. by rewrite wikipedia_search_catch.
Qed.

(** C2. [wikipedia_search] never raises: for every query, every world and
    every log it returns a string, the one its body returns or, when the body
    raises [e], ["Search error: "] followed by [str(e)]; and [execute_search]
    stores that string under [search_result]. *)
Theorem wikipedia_search_total (query : string) (log : list Event) :
  let out := wikipedia_search_body w query log in
  let returned :=
    match out.1 with
    | Ok s => s
    | Raise e => "Search error: " +:+ exc_str e
    end in
  wikipedia_search w query log = (Ok returned, out.2)
  /\ forall (state : State) (needs_search : PyVal),
       state !! "needs_search" = Some needs_search ->
       truthy needs_search = true ->
       state !! "user_question" = Some (VStr query) ->
       execute_search w state log
       = (Ok (<["search_result" := VStr returned]> state), out.2).
Proof.
  intros out returned. split.
  - apply wikipedia_search_catch.
  - intros state needs_search Hflag Htrue Hq.
    by apply execute_search_stores with needs_search.
Qed.

(** C5. One call of [wikipedia_search] attempts each request at most once:
    its log grows by the search request, or by the search request and then
    the summary request. A search status other than 200 returns the status
    message and an empty result list returns the no-articles message, both
    without the second request; a summary status other than 200 returns the
    could-not-retrieve message. *)
Theorem wikipedia_search_single_attempts (query : string) (log : list Event) :
  ((wikipedia_search w query log).2 = log ++ [first_get query]
   \/ exists title,
        (wikipedia_search w query log).2
        = log ++ [first_get query; second_get title])
  /\ (forall r,
        requests_get w log search_url (search_params query) = Ok r ->
        status_code r <> 200%Z ->
        wikipedia_search w query log
        = (Ok ("Wikipedia search failed with status "
               +:+ PyStr.of_int (status_code r)),
           log ++ [first_get query]))
  /\ (forall r,
        requests_get w log search_url (search_params query) = Ok r ->
        status_code r = 200%Z ->
        search_results_of r = Ok (JList []) ->
        wikipedia_search w query log
        = (Ok ("No Wikipedia articles found for '" +:+ query +:+ "'"),
           log ++ [first_get query]))
  /\ (forall r results title r2,
        requests_get w log search_url (search_params query) = Ok r ->
        status_code r = 200%Z ->
        search_results_of r = Ok results ->
        json_truthy results = true ->
        page_title_of results = Ok (JStr title) ->
        requests_get w (log ++ [first_get query])
          (summary_url (PyStr.replace " " "_" title)) [] = Ok r2 ->
        status_code r2 <> 200%Z ->
        wikipedia_search w query log
        = (Ok ("Found '" +:+ title +:+ "' but couldn't retrieve summary"),
           log ++ [first_get query; second_get title])).
Proof.
  split; [| split; [| split]].
  - rewrite wikipedia_search_catch. simpl. apply wikipedia_search_body_log.
  - intros r Hget Hstatus. apply Z.eqb_neq in Hstatus.
    unfold wikipedia_search, wikipedia_search_body, http_get. run_m.
    by rewrite Hget, Hstatus.
  - intros r Hget Hstatus Hresults. apply Z.eqb_eq in Hstatus.
    unfold wikipedia_search, wikipedia_search_body, http_get. run_m.
    by rewrite Hget, Hstatus, Hresults.
  - intros r results title r2 Hget Hstatus Hresults Htruthy Htitle Hget2 Hstatus2.
    apply Z.eqb_eq in Hstatus. apply Z.eqb_neq in Hstatus2.
    unfold first_get, second_get in *.
    unfold wikipedia_search, wikipedia_search_body, http_get. run_m.
    rewrite Hget, Hstatus, Hresults, Htruthy, Htitle. simpl.
    rewrite Hget2, Hstatus2. by rewrite <- app_assoc.
Qed.

End SearchFacts.

(** The path on which both requests succeed. *)
Section SuccessfulSearch.

Context (w : World) (query : string) (log : list Event).
Context (r : HttpResponse) (top : Json) (others : list Json) (title : string).
Context (r2 : HttpResponse) (summary : list (string * Json)).

Hypothesis search_ok :
  requests_get w log search_url (search_params query) = Ok r.
Hypothesis search_200 : status_code r = 200%Z.
Hypothesis results_nonempty : search_results_of r = Ok (JList (top :: others)).
Hypothesis title_is_str : json_item top "title" = Ok (JStr title).
Hypothesis summary_ok :
  requests_get w (log ++ [first_get query])
    (summary_url (PyStr.replace " " "_" title)) [] = Ok r2.
Hypothesis summary_200 : status_code r2 = 200%Z.
Hypothesis summary_is_dict : json r2 = Ok (JObj summary).

Lemma wikipedia_search_success (extract : Json) (shown : Json) :
  json_get (JObj summary) "extract" (JStr "No summary available") = Ok extract ->
  json_slice_to 400 extract = Ok shown ->
  wikipedia_search w query log
  = (Ok ("Found information about '" +:+ title +:+ "': "
         +:+ json_format w shown +:+ "..."),
     log ++ [first_get query; second_get title]).
Proof.
  intros Hextract Hshown.
  apply Z.eqb_eq in search_200. apply Z.eqb_eq in summary_200.
  unfold first_get, second_get in *.
  unfold wikipedia_search, wikipedia_search_body, http_get. run_m.
  rewrite search_ok, search_200, results_nonempty. simpl.
  unfold page_title_of. simpl. rewrite title_is_str. simpl.
  rewrite summary_ok, summary_200. unfold extract_of.
  rewrite summary_is_dict. simpl in *. injection Hextract as ->.
  rewrite Hshown. by rewrite <- app_assoc.
Qed.

(** C9. When both requests return status 200, the result list is not empty
    and nothing raises, the tool returns
    ["Found information about '<title>': "], then the first 400 characters
    of the extract (its characters up to the 400th, all of it when it is
    shorter), then ["..."]; a summary without an [extract] key gives
    ["No summary available"] in its place. *)
Theorem wikipedia_search_found :
  (forall extract : string,
     assoc "extract" summary = Some (JStr extract) ->
     exists shown,
       wikipedia_search w query log
       = (Ok ("Found information about '" +:+ title +:+ "': "
              +:+ shown +:+ "..."),
          log ++ [first_get query; second_get title])
       /\ PyStr.chars shown = take 400 (PyStr.chars extract)
       /\ String.length shown = Nat.min 400 (String.length extract)
       /\ (exists rest, extract = shown +:+ rest)
       /\ (String.length extract <= 400 -> shown = extract))
  /\ (assoc "extract" summary = None ->
      wikipedia_search w query log
      = (Ok ("Found information about '" +:+ title +:+ "': "
             +:+ "No summary available" +:+ "..."),
         log ++ [first_get query; second_get title])).
Proof.
  split.
  - intros extract Hextract. exists (PyStr.slice_to 400 extract).
    split; [| split; [| split; [| split]]].
    + apply (wikipedia_search_success (JStr extract)
               (JStr (PyStr.slice_to 400 extract))); [|done].
      simpl. by rewrite Hextract.
    + apply PyStrFacts.slice_to_take.
    + apply PyStrFacts.slice_to_length_min.
    + apply PyStrFacts.slice_to_prefix.
    + apply PyStrFacts.slice_to_all.
  - intros Hnone.
    apply (wikipedia_search_success (JStr "No summary available")
             (JStr "No summary available")); [|done].
    simpl. by rewrite Hnone.
Qed.

End SuccessfulSearch.

(** ** The three nodes *)

Section NodeFacts.

Context (w : World).

Lemma parse_decision_ok (content : string) :
  exists first rest,
    PyStr.split "010" (PyStr.strip content) = first :: rest
    /\ parse_decision content
       = Ok (PyStr.strip first,
             match rest with
             | second :: _ => second
             | [] => "No reasoning provided"
             end).
Proof.
  destruct (PyStrFacts.split_cons "010" (PyStr.strip content))
    as (first & rest & Hsplit).
  exists first, rest. split; [done |].
  unfold parse_decision. rewrite Hsplit. by destruct rest.
Qed.

(** What a returning [decide_search_need] has done. *)
Lemma decide_search_need_ok (state state' : State) (log log' : list Event) :
  decide_search_need w state log = (Ok state', log') ->
  exists user_question decision reasoning,
    state !! "user_question" = Some user_question
    /\ state' = <["reasoning" := VStr reasoning]>
                  (<["needs_search" := VBool decision]> state)
    /\ log' = log ++ [LLMInvoke (decision_prompt user_question)].
Proof.
  unfold decide_search_need, getitem, llm_call. run_m.
  destruct (state !! "user_question") as [user_question|] eqn:Hq; [|done].
  simpl. destruct (llm_invoke w log _) as [content|e]; [|done].
  destruct (parse_decision_ok content) as (first & rest & _ & ->).
  intros [= <- <-]. by eauto 7.
Qed.

(** What a returning [execute_search] has done. *)
Lemma execute_search_ok (state state' : State) (log log' : list Event) :
  execute_search w state log = (Ok state', log') ->
  exists needs_search result,
    state !! "needs_search" = Some needs_search
    /\ state' = <["search_result" := VStr result]> state
    /\ (if truthy needs_search
        then exists query,
               state !! "user_question" = Some (VStr query)
               /\ (log' = log ++ [first_get query]
                   \/ exists title,
                        log' = log ++ [first_get query; second_get title])
        else log' = log).
Proof.
  unfold execute_search, getitem. run_m.
  destruct (state !! "needs_search") as [needs_search|] eqn:Hflag; [|done].
  simpl. destruct (truthy needs_search) eqn:Htruthy; simpl.
  - destruct (state !! "user_question") as [[query|b]|] eqn:Hq; [|done..].
    simpl. rewrite wikipedia_search_catch. intros [= <- <-].
    exists needs_search. eexists. rewrite Htruthy.
    split; [done |]. split; [done |]. exists query. split; [done |].
    apply wikipedia_search_body_log.
  - intros [= <- <-]. exists needs_search. eexists. rewrite Htruthy. done.
Qed.

(** What a returning [generate_response] has done. *)
Lemma generate_response_ok (state state' : State) (log log' : list Event) :
  generate_response w state log = (Ok state', log') ->
  exists prompt content,
    state' = <["final_answer" := VStr content]> state
    /\ log' = log ++ [LLMInvoke prompt].
Proof.
  unfold generate_response, getitem, llm_call. run_m.
  destruct (state !! "user_question") as [user_question|]; [|done].
  simpl. destruct (state !! "needs_search") as [used_search|]; [|done].
  simpl. destruct (response_prompt _ _ _) as [prompt|e]; [|done].
  destruct (llm_invoke w log prompt) as [content|e]; [|done].
  intros [= <- <-]. by eauto.
Qed.

(** C1 (as amended). For every text the model returns, the decision step
    first strips the whole text, then splits it on newlines. The flag is
    true exactly when the first line of the stripped text, stripped again,
    is ["SEARCH"]; the rationale is the second line when the split has more
    than one line and ["No reasoning provided"] otherwise, stored as
    ["Decision: <decision>. Reasoning: <rationale>"]. Nothing else is
    checked and the step returns on every text. *)
Theorem decide_search_need_parse (state : State) (log : list Event)
    (user_question : PyVal) (content : string) :
  state !! "user_question" = Some user_question ->
  llm_invoke w log (decision_prompt user_question) = Ok content ->
  exists first rest,
    PyStr.split "010" (PyStr.strip content) = first :: rest
    /\ let decision := PyStr.strip first in
       let reasoning :=
         match rest with
         | second :: _ => second
         | [] => "No reasoning provided"
         end in
       decide_search_need w state log
       = (Ok (<["reasoning" :=
                 VStr ("Decision: " +:+ decision +:+ ". Reasoning: "
                       +:+ reasoning)]>
              (<["needs_search" := VBool (String.eqb decision "SEARCH")]>
                 state)),
          log ++ [LLMInvoke (decision_prompt user_question)])
       /\ (String.eqb decision "SEARCH" = true <-> decision = "SEARCH")
       /\ (1 < length (first :: rest) <-> rest <> []).
Proof.
  intros Hq Hllm.
  destruct (parse_decision_ok content) as (first & rest & Hsplit & Hparse).
  exists first, rest. split; [done |]. simpl. split; [| split].
  - unfold decide_search_need, getitem, llm_call. run_m.
    rewrite Hq. simpl. rewrite Hllm, Hparse. done.
  - apply String.eqb_eq.
  - destruct rest; simpl; split; (done || lia).
Qed.

(** C6 (as amended). With a Boolean flag and a string result in the state,
    [generate_response] sends the prompt that carries the search result
    exactly when the flag is true and the result does not contain
    ["Search error"]; otherwise it sends the prompt built from the question
    alone. Both prompts are written out: the first holds the question and
    the search result, the second the question only. Of the other failure
    strings, the status string never contains ["Search error"], so it is
    always carried; the no-articles and the could-not-retrieve strings
    contain it exactly when the query or the title they quote does, and are
    then withheld like a search error. *)
Theorem generate_response_prompt (state : State) (log : list Event)
    (user_question : PyVal) (needs_search : bool) (search_result : string) :
  state !! "user_question" = Some user_question ->
  state !! "needs_search" = Some (VBool needs_search) ->
  state !! "search_result" = Some (VStr search_result) ->
  let included :=
    needs_search && negb (PyStr.contains "Search error" search_result) in
  let with_result :=
    PyStr.nl +:+
    "        Answer the user's question using both your knowledge and the search results provided." +:+ PyStr.nl +:+
    "        " +:+ PyStr.nl +:+
    "        Question: " +:+ py_format user_question +:+ PyStr.nl +:+ PyStr.nl +:+
    "Search Results: " +:+ search_result +:+ PyStr.nl +:+
    "        " +:+ PyStr.nl +:+
    "        Provide a helpful, accurate response that synthesizes the information." +:+ PyStr.nl +:+
    "        " in
  let question_only :=
    PyStr.nl +:+
    "        Answer this question using your existing knowledge:" +:+ PyStr.nl +:+
    "        " +:+ PyStr.nl +:+
    "        " +:+ py_format user_question +:+ PyStr.nl +:+
    "        " +:+ PyStr.nl +:+
    "        Provide a helpful, accurate response." +:+ PyStr.nl +:+
    "        " in
  let prompt := if included then with_result else question_only in
  generate_response w state log
  = (match llm_invoke w log prompt with
     | Ok content => Ok (<["final_answer" := VStr content]> state)
     | Raise e => Raise e
     end,
     log ++ [LLMInvoke prompt])
  /\ search_response_prompt user_question search_result = with_result
  /\ direct_response_prompt user_question = question_only
  /\ PyStr.contains search_result with_result = true
  /\ with_result <> question_only
  /\ (forall status : Z,
        PyStr.contains "Search error"
          ("Wikipedia search failed with status " +:+ PyStr.of_int status)
        = false)
  /\ (forall query : string,
        PyStr.contains "Search error"
          ("No Wikipedia articles found for '" +:+ query +:+ "'")
        = PyStr.contains "Search error" query)
  /\ (forall title : string,
        PyStr.contains "Search error"
          ("Found '" +:+ title +:+ "' but couldn't retrieve summary")
        = PyStr.contains "Search error" title).
Proof.
  intros Hq Hflag Hresult included with_result question_only prompt.
  assert (Hwith : search_response_prompt user_question search_result
                  = with_result).
  { unfold search_response_prompt, context_text.
    by rewrite !PyStrFacts.append_assoc. }
  assert (Honly : direct_response_prompt user_question = question_only)
    by reflexivity.
  split_and!; [| exact Hwith | exact Honly | | | | |].
  - unfold generate_response, getitem, llm_call, response_prompt. run_m.
    rewrite Hq, Hflag, Hresult. simpl. rewrite Hwith, Honly.
    subst prompt included.
    destruct needs_search; simpl;
      [destruct (PyStr.contains "Search error" search_result); simpl |];
      by destruct (llm_invoke w log _).
  - rewrite <- Hwith. unfold search_response_prompt.
    do 6 apply PyStrFacts.contains_append_r.
    apply PyStrFacts.contains_append_l. unfold context_text.
    do 5 apply PyStrFacts.contains_append_r.
    apply PyStrFacts.contains_refl.
  - intros Heq.
    apply (f_equal (PyStr.slice_to 20)) in Heq. vm_compute in Heq.
    discriminate Heq.
  - intros status. clear.
    destruct (PyStr.contains _ _) eqn:Hc; [exfalso | done].
    apply PyStrFacts.contains_first_char in Hc.
    rewrite PyStrFacts.chars_append, elem_of_app in Hc.
    destruct Hc as [Hc | Hc].
    + apply list_elem_of_In in Hc. simpl in Hc. intuition discriminate.
    + pose proof (PyStrFacts.of_int_digits status) as Hd.
      rewrite Forall_forall in Hd. by apply Hd in Hc.
  - intros query. clear.
    apply (PyStrFacts.contains_framed "S" "earch error"
             "No Wikipedia articles found for '" query "'").
    + intros Hc%list_elem_of_In. simpl in Hc. intuition discriminate.
    + intros Hc%list_elem_of_In. simpl in Hc. intuition discriminate.
    + intros x [= <-] Hc%list_elem_of_In. simpl in Hc. intuition discriminate.
  - intros title. clear.
    apply (PyStrFacts.contains_framed "S" "earch error"
             "Found '" title "' but couldn't retrieve summary").
    + intros Hc%list_elem_of_In. simpl in Hc. intuition discriminate.
    + intros Hc%list_elem_of_In. simpl in Hc. intuition discriminate.
    + intros x [= <-] Hc%list_elem_of_In. simpl in Hc. intuition discriminate.
Qed.

End NodeFacts.

(** ** The shape of the state *)

Lemma assoc_is_Some {A} (k : string) (items : list (string * A)) :
  is_Some (assoc k items) <-> k ∈ items.*1.
Proof.
  induction items as [|[k' v] items IH]; simpl.
  - split; [by intros [? ?] | by intros ?%elem_of_nil].
  - rewrite elem_of_cons. destruct (String.eqb_spec k k') as [->|Hne].
    + split; [by left | by eauto].
    + rewrite IH. split; [by right | by intros [?|?]].
Qed.

Lemma conforms_dom (state : State) :
  conforms state -> dom state = list_to_set AgentState_schema.*1.
Proof.
  intros Hc. apply set_eq. intros k.
  rewrite elem_of_dom, elem_of_list_to_set, <- assoc_is_Some.
  specialize (Hc k). destruct (assoc k AgentState_schema) as [t|].
  - destruct Hc as (v & -> & _). split; by eauto.
  - rewrite Hc. split; by intros [? ?].
Qed.

Lemma conforms_insert (state : State) (k : string) (v : PyVal) (t : PyType) :
  conforms state ->
  assoc k AgentState_schema = Some t ->
  has_type v t = true ->
  conforms (<[k := v]> state).
Proof.
  intros Hc Hk Hv k'. destruct (decide (k' = k)) as [->|Hne].
  - rewrite Hk, lookup_insert_eq. by eauto.
  - rewrite lookup_insert_ne by done. apply Hc.
Qed.

Lemma conforms_initial_state (question : string) :
  conforms (initial_state question).
Proof.
  intros k. unfold initial_state. simpl.
  repeat match goal with
         | |- context [String.eqb k ?key] =>
             destruct (String.eqb_spec k key) as [->|?];
             [eexists; split; [by simplify_map_eq | done] |]
         end.
  by rewrite !lookup_insert_ne, lookup_empty.
Qed.

(** ** The pipeline *)

(** A literal key of the schema. *)
Ltac by_schema_key :=
  unfold schema_keys; simpl; rewrite !elem_of_cons; by auto 10.

Section PipelineFacts.

Context (w : World).

(** The compiled graph runs the three nodes one after the other and stops at
    the first one that raises. *)
Lemma simple_agent_unfold (state : State) (log : list Event) :
  simple_agent w state log =
  match decide_search_need w state log with
  | (Raise e, log1) => mkRun (Raise e) ["decide"] log1
  | (Ok decided, log1) =>
      match execute_search w decided log1 with
      | (Raise e, log2) => mkRun (Raise e) ["decide"; "search"] log2
      | (Ok searched, log2) =>
          match generate_response w searched log2 with
          | (Raise e, log3) =>
              mkRun (Raise e) ["decide"; "search"; "respond"] log3
          | (Ok final, log3) =>
              mkRun (Ok final) ["decide"; "search"; "respond"] log3
          end
      end
  end.
Proof.
  unfold simple_agent, invoke. simpl.
  destruct (decide_search_need w state log) as [[decided|e] log1]; [|done].
  destruct (execute_search w decided log1) as [[searched|e] log2]; [|done].
  by destruct (generate_response w searched log2) as [[final|e] log3].
Qed.

(** A completed run went through the three nodes. *)
Lemma simple_agent_ok (state final : State) (log : list Event) :
  outcome (simple_agent w state log) = Ok final ->
  exists decided log1 searched log2,
    decide_search_need w state log = (Ok decided, log1)
    /\ execute_search w decided log1 = (Ok searched, log2)
    /\ generate_response w searched log2
       = (Ok final, run_log (simple_agent w state log))
    /\ visited (simple_agent w state log) = ["decide"; "search"; "respond"].
Proof.
  rewrite simple_agent_unfold.
  destruct (decide_search_need w state log) as [[decided|e] log1] eqn:H1;
    [|done].
  destruct (execute_search w decided log1) as [[searched|e] log2] eqn:H2;
    [|done].
  destruct (generate_response w searched log2) as [[final'|e] log3] eqn:H3;
    [|done].
  simpl. intros [= ->]. by exists decided, log1, searched, log2.
Qed.

(** C7. A node that returns has written its own keys and no other:
    [decide_search_need] writes [needs_search] and [reasoning],
    [execute_search] writes [search_result], [generate_response] writes
    [final_answer]. Along a run the question is never modified, and what an
    earlier node wrote is still there at the end. *)
Theorem nodes_frame (state state' : State) (log log' : list Event) :
  (decide_search_need w state log = (Ok state', log') ->
   forall k, k <> "needs_search" -> k <> "reasoning" ->
             state' !! k = state !! k)
  /\ (execute_search w state log = (Ok state', log') ->
      forall k, k <> "search_result" -> state' !! k = state !! k)
  /\ (generate_response w state log = (Ok state', log') ->
      forall k, k <> "final_answer" -> state' !! k = state !! k)
  /\ (forall decided log1 searched log2,
        decide_search_need w state log = (Ok decided, log1) ->
        execute_search w decided log1 = (Ok searched, log2) ->
        generate_response w searched log2 = (Ok state', log') ->
        state' !! "user_question" = state !! "user_question"
        /\ state' !! "needs_search" = decided !! "needs_search"
        /\ state' !! "reasoning" = decided !! "reasoning"
        /\ state' !! "search_result" = searched !! "search_result").
Proof.
  assert (Hd : forall s s' l l',
             decide_search_need w s l = (Ok s', l') ->
             forall k, k <> "needs_search" -> k <> "reasoning" ->
                       s' !! k = s !! k).
  { intros s s' l l' (q & d & r & _ & -> & _)%decide_search_need_ok k H1 H2.
    by rewrite !lookup_insert_ne. }
  assert (Hs : forall s s' l l',
             execute_search w s l = (Ok s', l') ->
             forall k, k <> "search_result" -> s' !! k = s !! k).
  { intros s s' l l' (n & r & _ & -> & _)%execute_search_ok k H1.
    by rewrite lookup_insert_ne. }
  assert (Hr : forall s s' l l',
             generate_response w s l = (Ok s', l') ->
             forall k, k <> "final_answer" -> s' !! k = s !! k).
  { intros s s' l l' (p & c & -> & _)%generate_response_ok k H1.
    by rewrite lookup_insert_ne. }
  split; [by eauto | split; [by eauto | split; [by eauto |]]].
  intros decided log1 searched log2 H1 H2 H3.
  rewrite !(Hr _ _ _ _ H3) by done.
  rewrite !(Hs _ _ _ _ H2) by done.
  by rewrite (Hd _ _ _ _ H1).
Qed.

(** C8. The state has exactly the five declared keys, each of its declared
    type; every node that returns maps such a dict to such a dict, with the
    same key set, and so does a whole run. *)
Theorem nodes_preserve_shape (state state' : State) (log log' : list Event) :
  conforms state ->
  (length AgentState_schema = 5
   /\ AgentState_schema.*1
      = ["user_question"; "needs_search"; "search_result"; "final_answer";
         "reasoning"]
   /\ dom state = list_to_set AgentState_schema.*1
   /\ exists question flag result answer rationale,
        state !! "user_question" = Some (VStr question)
        /\ state !! "needs_search" = Some (VBool flag)
        /\ state !! "search_result" = Some (VStr result)
        /\ state !! "final_answer" = Some (VStr answer)
        /\ state !! "reasoning" = Some (VStr rationale))
  /\ (decide_search_need w state log = (Ok state', log') ->
      conforms state' /\ dom state' = dom state)
  /\ (execute_search w state log = (Ok state', log') ->
      conforms state' /\ dom state' = dom state)
  /\ (generate_response w state log = (Ok state', log') ->
      conforms state' /\ dom state' = dom state)
  /\ (outcome (simple_agent w state log) = Ok state' ->
      conforms state' /\ dom state' = dom state).
Proof.
  intros Hc.
  assert (Hdom : forall s, conforms s -> dom s = dom state).
  { intros s Hcs. by rewrite (conforms_dom s), (conforms_dom state). }
  assert (Hd : forall s s' l l',
             conforms s -> decide_search_need w s l = (Ok s', l') ->
             conforms s').
  { intros s s' l l' Hcs (q & d & r & _ & -> & _)%decide_search_need_ok.
    apply conforms_insert with TStr; [|done..].
    by apply conforms_insert with TBool. }
  assert (Hs : forall s s' l l',
             conforms s -> execute_search w s l = (Ok s', l') -> conforms s').
  { intros s s' l l' Hcs (n & r & _ & -> & _)%execute_search_ok.
    by apply conforms_insert with TStr. }
  assert (Hr : forall s s' l l',
             conforms s -> generate_response w s l = (Ok s', l') ->
             conforms s').
  { intros s s' l l' Hcs (p & c & -> & _)%generate_response_ok.
    by apply conforms_insert with TStr. }
  split; [| split; [| split; [| split]]].
  - split; [done |]. split; [done |]. split; [by apply conforms_dom |].
    pose proof (Hc "user_question") as (v1 & H1 & T1).
    pose proof (Hc "needs_search") as (v2 & H2 & T2).
    pose proof (Hc "search_result") as (v3 & H3 & T3).
    pose proof (Hc "final_answer") as (v4 & H4 & T4).
    pose proof (Hc "reasoning") as (v5 & H5 & T5).
    destruct v1 as [question|], v2 as [|flag], v3 as [result|],
      v4 as [answer|], v5 as [rationale|]; try done.
    by exists question, flag, result, answer, rationale.
  - intros H. by eauto.
  - intros H. by eauto.
  - intros H. by eauto.
  - intros (decided & log1 & searched & log2 & H1 & H2 & H3 & _)%simple_agent_ok.
    assert (conforms state') by (eapply Hr, H3; eapply Hs, H2; by eapply Hd, H1).
    by eauto.
Qed.

(** The calls of the plain executor: two LLM calls around the GETs of the
    search step on a run that completes, the decision call alone when it
    raises. *)
Lemma simple_agent_call_list (state : State) (log : list Event) :
  (forall final,
     outcome (simple_agent w state log) = Ok final ->
     exists user_question searched gets last_prompt,
       let asked := log ++ [LLMInvoke (decision_prompt user_question)] in
       let calls :=
         [LLMInvoke (decision_prompt user_question)] ++ gets
         ++ [LLMInvoke last_prompt] in
       state !! "user_question" = Some user_question
       /\ final !! "needs_search" = Some (VBool searched)
       /\ run_log (simple_agent w state log) = log ++ calls
       /\ (if searched
           then exists query,
                  user_question = VStr query
                  /\ gets = first_get query
                            :: match summary_title w query asked with
                               | Some title => [second_get title]
                               | None => []
                               end
           else gets = [])
       /\ count is_llm_call calls = 2
       /\ count is_llm_call gets = 0
       /\ count is_http_get calls = length gets
       /\ (if searched then 1 <= length gets <= 2 else length gets = 0))
  /\ (forall user_question e,
        state !! "user_question" = Some user_question ->
        llm_invoke w log (decision_prompt user_question) = Raise e ->
        outcome (simple_agent w state log) = Raise e
        /\ run_log (simple_agent w state log)
           = log ++ [LLMInvoke (decision_prompt user_question)]).
Proof.
  split.
  - intros final Hok.
    destruct (simple_agent_ok _ _ _ Hok)
      as (decided & log1 & searched & log2 & H1 & H2 & H3 & _).
    destruct (decide_search_need_ok w _ _ _ _ H1)
      as (question & flag & rationale & Hq & Hdecided & ->).
    destruct (generate_response_ok w _ _ _ _ H3)
      as (prompt & content & Hfinal & Hlog).
    assert (Hflag : decided !! "needs_search" = Some (VBool flag))
      by (subst decided; by simplify_map_eq).
    assert (Hq' : decided !! "user_question" = Some question)
      by (subst decided; by simplify_map_eq).
    assert (exists gets,
               log2 = (log ++ [LLMInvoke (decision_prompt question)]) ++ gets
               /\ (exists result, searched = <["search_result" := VStr result]> decided)
               /\ (if flag
                   then exists query,
                          question = VStr query
                          /\ gets
                             = first_get query
                               :: match summary_title w query
                                          (log ++ [LLMInvoke (decision_prompt question)]) with
                                  | Some title => [second_get title]
                                  | None => []
                                  end
                   else gets = [])) as (gets & -> & [result ->] & Hshape).
    { revert H2. unfold execute_search, getitem. run_m.
      rewrite Hflag. simpl. destruct flag; simpl.
      - rewrite Hq'. simpl. destruct question as [query|b]; simpl; [| done].
        rewrite wikipedia_search_catch, wikipedia_search_body_calls.
        intros [= <- <-]. eexists. split; [done |]. split; [by eauto |].
        by exists query.
      - intros [= <- <-]. exists []. rewrite app_nil_r. by eauto. }
    exists question, flag, gets, prompt. simpl.
    split; [done |].
    split; [subst; by simplify_map_eq |].
    split; [by rewrite Hlog, <- !app_assoc |].
    split; [done |].
    destruct flag.
    + destruct Hshape as (query & -> & ->).
      destruct (summary_title w query _); by vm_compute; lia.
    + subst gets. by vm_compute.
  - intros user_question e Hq Hllm. rewrite simple_agent_unfold.
    unfold decide_search_need, getitem, llm_call. run_m.
    rewrite Hq. simpl. by rewrite Hllm.
Qed.

(** The channels take a dict of the schema whole. *)
Lemma channels_id (state : State) :
  (forall k, is_Some (state !! k) -> k ∈ schema_keys) ->
  channels state = state.
Proof.
  intros Hkeys. apply map_filter_id. intros k v Hk. simpl.
  apply Hkeys. by eauto.
Qed.

Lemma channels_idempotent (state : State) :
  channels (channels state) = channels state.
Proof.
  apply channels_id. intros k [v Hk].
  by apply map_lookup_filter_Some in Hk as [_ Hin].
Qed.

Lemma in_schema_insert (state : State) (k : string) (v : PyVal) :
  in_schema state -> k ∈ schema_keys -> in_schema (<[k := v]> state).
Proof.
  intros [_ Hkeys] Hk. split.
  - apply insert_non_empty.
  - intros k' Hsome. destruct (decide (k = k')) as [<-|Hne]; [done |].
    rewrite lookup_insert_ne in Hsome by done. by apply Hkeys.
Qed.

(** What a node returns overwrites the channels it names; a node that
    returns the state it was given, updated, leaves nothing of the old
    values. *)
Lemma channels_update (returned values : State) :
  in_schema returned ->
  (forall k, is_Some (values !! k) -> is_Some (returned !! k)) ->
  channels returned ∪ values = returned.
Proof.
  intros [_ Hkeys] Hdom. rewrite (channels_id _ Hkeys).
  apply map_eq. intros k. rewrite lookup_union.
  destruct (returned !! k) eqn:Hr, (values !! k) eqn:Hv; try done.
  destruct (Hdom k) as [v' Hv']; [by eauto | congruence].
Qed.

Lemma is_Some_insert_mono (state : State) (k k' : string) (v : PyVal) :
  is_Some (state !! k') -> is_Some (<[k := v]> state !! k').
Proof.
  intros Hsome. destruct (decide (k = k')) as [<-|Hne].
  - rewrite lookup_insert_eq. by eauto.
  - by rewrite lookup_insert_ne.
Qed.


(** On a dict of the schema the channels change nothing: the compiled
    graph is the plain executor. *)
Lemma compiled_agent_plain (state : State) (log : list Event) :
  in_schema state ->
  compiled_agent w state log = simple_agent w state log.
Proof.
  intros Hin. rewrite simple_agent_unfold.
  unfold compiled_agent, invoke_channels. simpl.
  rewrite (channels_id state) by apply Hin.
  rewrite bool_decide_eq_false_2
    by (rewrite dom_empty_iff_L; apply Hin).
  simpl.
  destruct (decide_search_need w state log) as [[decided|e] log1] eqn:H1;
    [| done].
  apply decide_search_need_ok in H1 as (q & flag & rationale & _ & -> & _).
  assert (Hdecided :
            in_schema (<["reasoning" := VStr rationale]>
                         (<["needs_search" := VBool flag]> state))).
  { apply in_schema_insert; [| by_schema_key].
    apply in_schema_insert; [done | by_schema_key]. }
  rewrite channels_update;
    [| done | by intros k Hk; do 2 apply is_Some_insert_mono].
  set (decided := <["reasoning" := _]> _) in *.
  destruct (execute_search w decided log1) as [[searched|e] log2] eqn:H2;
    [| done].
  apply execute_search_ok in H2 as (n & result & _ & -> & _).
  assert (Hsearched : in_schema (<["search_result" := VStr result]> decided)).
  { apply in_schema_insert; [done | by_schema_key]. }
  rewrite channels_update;
    [| done | by intros k Hk; apply is_Some_insert_mono].
  set (searched := <["search_result" := _]> _) in *.
  destruct (generate_response w searched log2) as [[final|e] log3] eqn:H3;
    [| done].
  apply generate_response_ok in H3 as (p & answer & -> & _).
  rewrite channels_update;
    [done | | by intros k Hk; apply is_Some_insert_mono].
  apply in_schema_insert; [done | by_schema_key].
Qed.

Lemma channels_lookup (state : State) (k : string) :
  k ∈ schema_keys -> channels state !! k = state !! k.
Proof.
  intros Hk. unfold channels.
  destruct (state !! k) as [v|] eqn:Hv.
  - by apply map_lookup_filter_Some.
  - apply map_lookup_filter_None. left. done.
Qed.

Lemma channels_nonempty (state : State) (k : string) :
  k ∈ schema_keys -> is_Some (state !! k) -> channels state <> ∅.
Proof.
  intros Hk [v Hv] Hempty.
  rewrite <- (channels_lookup _ _ Hk), Hempty, lookup_empty in Hv.
  discriminate Hv.
Qed.

Lemma in_schema_channels (state : State) :
  channels state <> ∅ -> in_schema (channels state).
Proof.
  intros Hne. split; [done |]. intros k [v Hk].
  by apply map_lookup_filter_Some in Hk as [_ Hin].
Qed.

(** The compiled graph runs the plain executor on the part of the input
    that the channels take. *)
Lemma compiled_agent_channels (state : State) (log : list Event) :
  channels state <> ∅ ->
  compiled_agent w state log = simple_agent w (channels state) log.
Proof.
  intros Hne.
  rewrite <- (compiled_agent_plain _ _ (in_schema_channels _ Hne)).
  unfold compiled_agent, invoke_channels.
  by rewrite channels_idempotent.
Qed.

(** An input that writes no channel is refused before any node runs. *)
Lemma compiled_agent_refused (state : State) (log : list Event) :
  channels state = ∅ ->
  visited (compiled_agent w state log) = []
  /\ run_log (compiled_agent w state log) = log
  /\ exc_class <$> error_of (outcome (compiled_agent w state log))
     = Some "InvalidUpdateError".
Proof.
  intros Hempty. unfold compiled_agent, invoke_channels. simpl.
  rewrite Hempty, dom_empty_L. by rewrite bool_decide_eq_true_2.
Qed.

Lemma channels_empty_or_not (state : State) :
  channels state = ∅ \/ channels state <> ∅.
Proof.
  destruct (decide (dom (channels state) = (∅ : gset string))) as [He|Hne].
  - left. by apply dom_empty_iff_L.
  - right. intros He. apply Hne. by rewrite He, dom_empty_L.
Qed.

(** C3 (as amended). A run of the compiled workflow that completes makes exactly two LLM calls, the
    decision prompt first and the answer prompt last; a run whose decision
    call raises makes that call only. When the search step of a completed
    run searches, it issues the search request and, exactly when that
    request returns status 200 with a result list that is not empty and
    whose top result has a string title, the summary request after it: two
    GETs then, one otherwise; when the step skips, none. *)
Theorem pipeline_calls (state : State) (log : list Event) :
  (forall final,
     outcome (compiled_agent w state log) = Ok final ->
     exists user_question searched gets last_prompt,
       let asked := log ++ [LLMInvoke (decision_prompt user_question)] in
       let calls :=
         [LLMInvoke (decision_prompt user_question)] ++ gets
         ++ [LLMInvoke last_prompt] in
       state !! "user_question" = Some user_question
       /\ final !! "needs_search" = Some (VBool searched)
       /\ run_log (compiled_agent w state log) = log ++ calls
       /\ (if searched
           then exists query,
                  user_question = VStr query
                  /\ gets = first_get query
                            :: match summary_title w query asked with
                               | Some title => [second_get title]
                               | None => []
                               end
           else gets = [])
       /\ count is_llm_call calls = 2
       /\ count is_llm_call gets = 0
       /\ count is_http_get calls = length gets
       /\ (if searched then 1 <= length gets <= 2 else length gets = 0))
  /\ (forall user_question e,
        state !! "user_question" = Some user_question ->
        llm_invoke w log (decision_prompt user_question) = Raise e ->
        outcome (compiled_agent w state log) = Raise e
        /\ run_log (compiled_agent w state log)
           = log ++ [LLMInvoke (decision_prompt user_question)]).
Proof.
  assert (Hkey : "user_question" ∈ schema_keys) by by_schema_key.
  split.
  - intros final Hok.
    destruct (channels_empty_or_not state) as [Hempty|Hne].
    { destruct (compiled_agent_refused state log Hempty) as (_ & _ & Hexc).
      rewrite Hok in Hexc. discriminate Hexc. }
    rewrite (compiled_agent_channels _ _ Hne) in Hok |- *.
    destruct (simple_agent_call_list (channels state) log) as [Hcompleted _].
    destruct (Hcompleted final Hok)
      as (question & searched & gets & last & Hq & Hrest).
    exists question, searched, gets, last.
    rewrite (channels_lookup _ _ Hkey) in Hq. by split.
  - intros user_question e Hq Hllm.
    rewrite (compiled_agent_channels state log)
      by (apply (channels_nonempty _ _ Hkey); by eauto).
    destruct (simple_agent_call_list (channels state) log) as [_ Hfailed].
    apply Hfailed; [| done]. by rewrite (channels_lookup _ _ Hkey).
Qed.


End PipelineFacts.

(** ** Notebook 2 *)

Section AnchorFacts.

Context (w : World).

(** The session cell posts once, first, whatever happens next. *)
Lemma create_session_log (log : list Event) :
  (create_session w log).2 = log ++ [session_post].
Proof.
  unfold create_session. run_m. simpl.
  repeat (next_case; simpl; try done).
Qed.

Lemma find_worker_url (url : string) (workers : list string) (found : string) :
  find_worker url workers = Some found -> found = url.
Proof.
  unfold find_worker. intros [_ Heq]%find_some. by apply String.eqb_eq in Heq.
Qed.




End AnchorFacts.


(** ** The theorems at concrete runs *)

(** Decide a closed equation by evaluating both sides. *)
Ltac by_evaluation :=
  match goal with
  | |- ?lhs = ?rhs => vm_cast_no_check (@eq_refl _ rhs)
  end.

Lemma decide_search_need_parse_witness :
  initial_state eiffel !! "user_question" = Some (VStr eiffel)
  /\ llm_invoke world_hit [] (decision_prompt (VStr eiffel))
     = Ok ("SEARCH" +:+ PyStr.nl +:+ "Needs recent data")
  /\ state_of (decide_search_need world_hit (initial_state eiffel) []).1
       !! "needs_search" = Some (VBool true)
  /\ state_of (decide_search_need world_hit (initial_state eiffel) []).1
       !! "reasoning"
     = Some (VStr "Decision: SEARCH. Reasoning: Needs recent data").
Proof.
  assert (Hq : initial_state eiffel !! "user_question" = Some (VStr eiffel))
    by by_evaluation.
  assert (Hllm : llm_invoke world_hit [] (decision_prompt (VStr eiffel))
                 = Ok ("SEARCH" +:+ PyStr.nl +:+ "Needs recent data"))
    by by_evaluation.
  split; [exact Hq | split; [exact Hllm |]].
  destruct (decide_search_need_parse world_hit (initial_state eiffel) [] _ _
              Hq Hllm)
    as (first & rest & Hsplit & Hrun & _).
  vm_compute in Hsplit. injection Hsplit as <- <-.
  rewrite Hrun. split; by_evaluation.
Defined.

(** C1 as the specification words it does not hold: on a text that begins
    with a newline the first line of the text is empty, yet the step sets
    the flag. *)
Lemma decide_strips_before_split :
  llm_invoke world_blank_first_line [] (decision_prompt (VStr france))
  = Ok (PyStr.nl +:+ "SEARCH")
  /\ first_line_is_search (PyStr.nl +:+ "SEARCH") = false
  /\ is_ok (decide_search_need world_blank_first_line (initial_state france) []).1
     = true
  /\ state_of
       (decide_search_need world_blank_first_line (initial_state france) []).1
       !! "needs_search" = Some (VBool true).
Proof. split_and!; by_evaluation. Qed.

Lemma wikipedia_search_total_witness :
  flagged "Paris" !! "needs_search" = Some (VBool true)
  /\ truthy (VBool true) = true
  /\ flagged "Paris" !! "user_question" = Some (VStr "Paris")
  /\ wikipedia_search world_http_down "Paris" []
     = (Ok "Search error: connection refused", [first_get "Paris"])
  /\ execute_search world_http_down (flagged "Paris") []
     = (Ok (with_result "Search error: connection refused" (flagged "Paris")),
        [first_get "Paris"]).
Proof.
  assert (Hflag : flagged "Paris" !! "needs_search" = Some (VBool true))
    by by_evaluation.
  assert (Hq : flagged "Paris" !! "user_question" = Some (VStr "Paris"))
    by by_evaluation.
  destruct (wikipedia_search_total world_http_down "Paris" []) as [Hcall Hstore].
  split_and!; [exact Hflag | reflexivity | exact Hq | exact Hcall |].
  exact (Hstore (flagged "Paris") (VBool true) Hflag eq_refl Hq).
Defined.

(** C3 as the specification words it does not hold: a run whose search step
    searches and finds a page issues two GETs, and a run whose decision call
    is rejected by the provider makes one LLM call, not two. *)
Lemma call_counts_are_not_two_and_one :
  (is_ok (outcome (compiled_agent world_hit (initial_state eiffel) [])) = true
   /\ state_of (outcome (compiled_agent world_hit (initial_state eiffel) []))
        !! "needs_search" = Some (VBool true)
   /\ count is_http_get
        (run_log (compiled_agent world_hit (initial_state eiffel) [])) = 2
   /\ filter (fun e => is_http_get e = true)
        (run_log (compiled_agent world_hit (initial_state eiffel) []))
      = [first_get eiffel; second_get "Eiffel Tower"])
  /\ (outcome (compiled_agent world_llm_down (initial_state france) [])
      = Raise invalid_api_key
      /\ count is_llm_call
           (run_log (compiled_agent world_llm_down (initial_state france) [])) = 1).
Proof. split; split_and!; by_evaluation. Qed.

Lemma pipeline_calls_witness :
  (outcome (compiled_agent world_hit (initial_state eiffel) [])
   = Ok (state_of (outcome (compiled_agent world_hit (initial_state eiffel) [])))
   /\ run_log (compiled_agent world_hit (initial_state eiffel) [])
      = [ LLMInvoke (decision_prompt (VStr eiffel));
          first_get eiffel; second_get "Eiffel Tower";
          LLMInvoke (search_response_prompt (VStr eiffel)
                       "Found information about 'Eiffel Tower': A wrought-iron tower....") ])
  /\ (outcome (compiled_agent world_hit_without_title (initial_state eiffel) [])
      = Ok (state_of
              (outcome (compiled_agent world_hit_without_title (initial_state eiffel) [])))
      /\ count is_http_get
           (run_log (compiled_agent world_hit_without_title (initial_state eiffel) []))
         = 1)
  /\ (llm_invoke world_llm_down [] (decision_prompt (VStr france))
      = Raise invalid_api_key
      /\ run_log (compiled_agent world_llm_down (initial_state france) [])
         = [LLMInvoke (decision_prompt (VStr france))]).
Proof.
  assert (Hok : outcome (compiled_agent world_hit (initial_state eiffel) [])
                = Ok (state_of
                        (outcome (compiled_agent world_hit (initial_state eiffel) []))))
    by by_evaluation.
  assert (Hok' : outcome (compiled_agent world_hit_without_title (initial_state eiffel) [])
                 = Ok (state_of
                         (outcome (compiled_agent world_hit_without_title
                                     (initial_state eiffel) []))))
    by by_evaluation.
  assert (Hq : initial_state france !! "user_question" = Some (VStr france))
    by by_evaluation.
  split_and!; [exact Hok | | exact Hok' | | reflexivity |].
  - by_evaluation.
  - destruct (pipeline_calls world_hit_without_title (initial_state eiffel) [])
      as [Hcompleted _].
    destruct (Hcompleted _ Hok')
      as (question & searched & gets & last & Hquestion & Hflag & Hlog
          & Hgets & _ & _ & Hcount & _).
    transitivity (length gets); [rewrite Hlog; exact Hcount |].
    destruct searched.
    + destruct Hgets as (query & -> & ->).
      assert (Hquery : Some (VStr query) = Some (VStr eiffel))
        by (rewrite <- Hquestion; by_evaluation).
      injection Hquery as ->. by_evaluation.
    + vm_compute in Hflag. discriminate Hflag.
  - destruct (pipeline_calls world_llm_down (initial_state france) [])
      as [_ Hfailed].
    destruct (Hfailed (VStr france) invalid_api_key Hq eq_refl) as [_ Hlog].
    exact Hlog.
Defined.



Lemma wikipedia_search_single_attempts_witness :
  wikipedia_search world_search_503 "Paris" []
  = (Ok "Wikipedia search failed with status 503", [first_get "Paris"])
  /\ wikipedia_search world_search_miss "Paris" []
     = (Ok "No Wikipedia articles found for 'Paris'", [first_get "Paris"])
  /\ wikipedia_search world_summary_404 "Paris" []
     = (Ok "Found 'Eiffel Tower' but couldn't retrieve summary",
        [first_get "Paris"; second_get "Eiffel Tower"]).
Proof.
  split; [| split].
  - destruct (wikipedia_search_single_attempts world_search_503 "Paris" [])
      as (_ & Hstatus & _).
    refine (Hstatus (mkResponse 503 (Ok JNull)) eq_refl _). simpl. lia.
  - destruct (wikipedia_search_single_attempts world_search_miss "Paris" [])
      as (_ & _ & Hmiss & _).
    exact (Hmiss (mkResponse 200 (Ok search_miss)) eq_refl eq_refl eq_refl).
  - destruct (wikipedia_search_single_attempts world_summary_404 "Paris" [])
      as (_ & _ & _ & Hsummary).
    refine (Hsummary (mkResponse 200 (Ok (search_hit "Eiffel Tower")))
              (JList [JObj [("title", JStr "Eiffel Tower")]]) "Eiffel Tower"
              (mkResponse 404 (Ok JNull))
              eq_refl eq_refl eq_refl eq_refl eq_refl eq_refl _).
    simpl. lia.
Defined.

Lemma generate_response_prompt_witness :
  with_result "Search error: connection refused" (flagged "Paris")
    !! "user_question" = Some (VStr "Paris")
  /\ with_result "Search error: connection refused" (flagged "Paris")
       !! "needs_search" = Some (VBool true)
  /\ with_result "Search error: connection refused" (flagged "Paris")
       !! "search_result" = Some (VStr "Search error: connection refused")
  /\ (generate_response world_direct
        (with_result "Search error: connection refused" (flagged "Paris")) []).2
     = [LLMInvoke (direct_response_prompt (VStr "Paris"))]
  /\ (generate_response world_direct
        (with_result "No Wikipedia articles found for 'Paris'" (flagged "Paris"))
        []).2
     = [LLMInvoke (search_response_prompt (VStr "Paris")
                     "No Wikipedia articles found for 'Paris'")].
Proof.
  assert (Hkeys : forall result,
             with_result result (flagged "Paris") !! "user_question"
             = Some (VStr "Paris")
             /\ with_result result (flagged "Paris") !! "needs_search"
                = Some (VBool true)
             /\ with_result result (flagged "Paris") !! "search_result"
                = Some (VStr result)).
  { intros result. unfold with_result, flagged, initial_state.
    split_and!; by simplify_map_eq. }
  destruct (Hkeys "Search error: connection refused") as (Hq & Hflag & Hresult).
  destruct (Hkeys "No Wikipedia articles found for 'Paris'")
    as (Hq' & Hflag' & Hresult').
  split_and!; [exact Hq | exact Hflag | exact Hresult | |].
  - destruct (generate_response_prompt world_direct _ [] _ _ _ Hq Hflag Hresult)
      as (Hrun & _).
    rewrite Hrun. reflexivity.
  - destruct (generate_response_prompt world_direct _ [] _ _ _ Hq' Hflag' Hresult')
      as (Hrun & _).
    rewrite Hrun. reflexivity.
Defined.

(** C6 as the specification words it does not hold: the no-articles
    string is one of the other failure strings, yet for a query that holds
    ["Search error"] it is withheld and the question-only prompt is sent. *)
Lemma quoted_search_error_is_withheld :
  with_result "No Wikipedia articles found for 'What does Search error mean?'"
    (flagged error_question) !! "needs_search" = Some (VBool true)
  /\ with_result "No Wikipedia articles found for 'What does Search error mean?'"
       (flagged error_question) !! "search_result"
     = Some (VStr "No Wikipedia articles found for 'What does Search error mean?'")
  /\ (generate_response world_direct
        (with_result
           "No Wikipedia articles found for 'What does Search error mean?'"
           (flagged error_question)) []).2
     = [LLMInvoke (direct_response_prompt (VStr error_question))]
  /\ PyStr.contains "No Wikipedia articles found"
       (direct_response_prompt (VStr error_question)) = false.
Proof. split_and!; by_evaluation. Qed.

Lemma nodes_frame_witness :
  decide_search_need world_hit (initial_state eiffel) []
  = (Ok (state_of (decide_search_need world_hit (initial_state eiffel) []).1),
     [LLMInvoke (decision_prompt (VStr eiffel))])
  /\ state_of (decide_search_need world_hit (initial_state eiffel) []).1
       !! "user_question" = initial_state eiffel !! "user_question"
  /\ state_of (decide_search_need world_hit (initial_state eiffel) []).1
       !! "final_answer" = initial_state eiffel !! "final_answer".
Proof.
  assert (Hrun : decide_search_need world_hit (initial_state eiffel) []
                 = (Ok (state_of
                          (decide_search_need world_hit (initial_state eiffel) []).1),
                    [LLMInvoke (decision_prompt (VStr eiffel))]))
    by by_evaluation.
  split; [exact Hrun |].
  destruct (nodes_frame world_hit (initial_state eiffel)
              (state_of (decide_search_need world_hit (initial_state eiffel) []).1)
              [] [LLMInvoke (decision_prompt (VStr eiffel))])
    as (Hframe & _).
  split; apply (Hframe Hrun); discriminate.
Defined.

Lemma nodes_preserve_shape_witness :
  conforms (initial_state eiffel)
  /\ outcome (simple_agent world_hit (initial_state eiffel) [])
     = Ok (state_of (outcome (simple_agent world_hit (initial_state eiffel) [])))
  /\ conforms (state_of (outcome (simple_agent world_hit (initial_state eiffel) [])))
  /\ dom (state_of (outcome (simple_agent world_hit (initial_state eiffel) [])))
     = dom (initial_state eiffel).
Proof.
  pose proof (conforms_initial_state eiffel) as Hc.
  assert (Hok : outcome (simple_agent world_hit (initial_state eiffel) [])
                = Ok (state_of
                        (outcome (simple_agent world_hit (initial_state eiffel) []))))
    by by_evaluation.
  split; [exact Hc |]. split; [exact Hok |].
  destruct (nodes_preserve_shape world_hit (initial_state eiffel)
              (state_of (outcome (simple_agent world_hit (initial_state eiffel) [])))
              [] [] Hc)
    as (_ & _ & _ & _ & Hwhole).
  exact (Hwhole Hok).
Defined.

Lemma wikipedia_search_found_witness :
  wikipedia_search world_long_extract "Eiffel" []
  = (Ok ("Found information about 'Eiffel Tower': " +:+ repeated "x" 400
         +:+ "..."),
     [first_get "Eiffel"; second_get "Eiffel Tower"])
  /\ wikipedia_search world_hit "Eiffel" []
     = (Ok "Found information about 'Eiffel Tower': A wrought-iron tower....",
        [first_get "Eiffel"; second_get "Eiffel Tower"])
  /\ wikipedia_search world_no_extract "Eiffel" []
     = (Ok "Found information about 'Eiffel Tower': No summary available...",
        [first_get "Eiffel"; second_get "Eiffel Tower"]).
Proof.
  split; [| split].
  - destruct (wikipedia_search_found world_long_extract "Eiffel" []
                (mkResponse 200 (Ok (search_hit "Eiffel Tower")))
                (JObj [("title", JStr "Eiffel Tower")]) [] "Eiffel Tower"
                (mkResponse 200 (Ok (summary_of (repeated "x" 450))))
                [("title", JStr "Paris"); ("extract", JStr (repeated "x" 450))]
                eq_refl eq_refl eq_refl eq_refl eq_refl eq_refl eq_refl)
      as (Hextract & _).
    destruct (Hextract (repeated "x" 450) eq_refl)
      as (shown & Hrun & Hchars & _).
    assert (shown = repeated "x" 400) as <-; [| exact Hrun].
    rewrite <- (String.string_of_list_ascii_of_string shown).
    rewrite <- (String.string_of_list_ascii_of_string (repeated "x" 400)).
    f_equal.
    assert (Hlist : forall s, String.list_ascii_of_string s = PyStr.chars s)
      by (intros s; induction s as [|c s IH]; simpl; [done | by rewrite IH]).
    rewrite !Hlist, Hchars. by_evaluation.
  - destruct (wikipedia_search_found world_hit "Eiffel" []
                (mkResponse 200 (Ok (search_hit "Eiffel Tower")))
                (JObj [("title", JStr "Eiffel Tower")]) [] "Eiffel Tower"
                (mkResponse 200 (Ok (summary_of "A wrought-iron tower.")))
                [("title", JStr "Paris"); ("extract", JStr "A wrought-iron tower.")]
                eq_refl eq_refl eq_refl eq_refl eq_refl eq_refl eq_refl)
      as (Hextract & _).
    destruct (Hextract "A wrought-iron tower." eq_refl)
      as (shown & Hrun & _ & _ & _ & Hall).
    rewrite (Hall ltac:(simpl; lia)) in Hrun. exact Hrun.
  - destruct (wikipedia_search_found world_no_extract "Eiffel" []
                (mkResponse 200 (Ok (search_hit "Eiffel Tower")))
                (JObj [("title", JStr "Eiffel Tower")]) [] "Eiffel Tower"
                (mkResponse 200 (Ok (JObj [("title", JStr "Eiffel Tower")])))
                [("title", JStr "Eiffel Tower")]
                eq_refl eq_refl eq_refl eq_refl eq_refl eq_refl eq_refl)
      as (_ & Hmissing).
    exact (Hmissing eq_refl).
Defined.



(** * Further properties of the two notebooks *)

(** ** More on the string primitives *)

Module PyStrMore.
Import PyStr.

#[local] Arguments String.append !_ _ : simpl nomatch.

(** Splitting a text at its first separator. *)
Lemma split_app_sep (sep : ascii) (a b : string) :
  sep ∉ chars a ->
  split sep (a +:+ String sep b) = a :: split sep b.
Proof.
  induction a as [|c a IH]; simpl; intros Hsep.
  - by rewrite Ascii.eqb_refl.
  - apply not_elem_of_cons in Hsep as [Hne Hsep].
    destruct (Ascii.eqb_spec c sep) as [->|_]; [done |].
    by rewrite IH.
Qed.

Lemma split_no_sep (sep : ascii) (a : string) :
  sep ∉ chars a -> split sep a = [a].
Proof.
  induction a as [|c a IH]; simpl; intros Hsep; [done |].
  apply not_elem_of_cons in Hsep as [Hne Hsep].
  destruct (Ascii.eqb_spec c sep) as [->|_]; [done |].
  by rewrite IH.
Qed.

Lemma lstrip_cons (c : ascii) (r : string) :
  lstrip (String c r) = if is_space c then lstrip r else String c r.
Proof. done. Qed.

Lemma lstrip_spaces (a : string) :
  Forall (fun c => is_space c = true) (chars a) -> lstrip a = "".
Proof.
  induction a as [|c a IH]; simpl; [done |].
  intros [Hc Ha]%Forall_cons. rewrite Hc. by apply IH.
Qed.

Lemma rstrip_spaces (b : string) :
  Forall (fun c => is_space c = true) (chars b) -> rstrip b = "".
Proof.
  induction b as [|c b IH]; simpl; [done |].
  intros [Hc Hb]%Forall_cons. by rewrite Hc, IH.
Qed.

Lemma lstrip_app_spaces (a s : string) :
  Forall (fun c => is_space c = true) (chars a) -> lstrip (a +:+ s) = lstrip s.
Proof.
  induction a as [|c a IH]; simpl; [done |].
  intros [Hc Ha]%Forall_cons. rewrite Hc. by apply IH.
Qed.

Lemma rstrip_app_spaces (s b : string) :
  Forall (fun c => is_space c = true) (chars b) -> rstrip (s +:+ b) = rstrip s.
Proof.
  intros Hb. induction s as [|c s IH]; simpl.
  - by apply rstrip_spaces.
  - by rewrite IH.
Qed.

Lemma strip_app_spaces (s b : string) :
  Forall (fun c => is_space c = true) (chars b) -> strip (s +:+ b) = strip s.
Proof.
  intros Hb. unfold strip. induction s as [|c s IH].
  - simpl. by rewrite lstrip_spaces, rstrip_spaces.
  - change (String c s +:+ b) with (String c (s +:+ b)).
    rewrite !lstrip_cons. destruct (is_space c); [done |].
    change (String c (s +:+ b)) with (String c s +:+ b).
    by apply rstrip_app_spaces.
Qed.

(** White space around a text does not change what [strip] returns. *)
Lemma strip_padding (a s b : string) :
  Forall (fun c => is_space c = true) (chars a) ->
  Forall (fun c => is_space c = true) (chars b) ->
  strip (a +:+ s +:+ b) = strip s.
Proof.
  intros Ha Hb. unfold strip. rewrite lstrip_app_spaces by done.
  by apply strip_app_spaces.
Qed.

Lemma replace_absent (a b : ascii) (s : string) :
  a <> b -> a ∉ chars (replace a b s).
Proof.
  intros Hab. induction s as [|c s IH]; simpl; [by apply not_elem_of_nil |].
  apply not_elem_of_cons. split; [| done].
  destruct (Ascii.eqb_spec c a); congruence.
Qed.

Lemma replace_length (a b : ascii) (s : string) :
  String.length (replace a b s) = String.length s.
Proof. induction s as [|c s IH]; simpl; [done | by rewrite IH]. Qed.

Lemma replace_id (a b : ascii) (s : string) :
  a ∉ chars s -> replace a b s = s.
Proof.
  induction s as [|c s IH]; simpl; [done |].
  intros [Hne Hs]%not_elem_of_cons.
  destruct (Ascii.eqb_spec c a) as [->|_]; [done |]. by rewrite IH.
Qed.

End PyStrMore.

(** ** The decision parse *)

Section DecisionFacts.

Context (w : World).

(** What [decide_search_need] returns once the model has answered. *)
Lemma decide_search_need_after_answer (state : State) (log : list Event)
    (user_question : PyVal) (content : string) :
  state !! "user_question" = Some user_question ->
  llm_invoke w log (decision_prompt user_question) = Ok content ->
  decide_search_need w state log
  = (match parse_decision content with
     | Ok (decision, reasoning) =>
         Ok (<["reasoning" := VStr ("Decision: " +:+ decision
                                    +:+ ". Reasoning: " +:+ reasoning)]>
             (<["needs_search" := VBool (String.eqb decision "SEARCH")]> state))
     | Raise e => Raise e
     end,
     log ++ [LLMInvoke (decision_prompt user_question)]).
Proof.
  intros Hq Hllm. unfold decide_search_need, getitem, llm_call. run_m.
  rewrite Hq. simpl. rewrite Hllm.
  by destruct (parse_decision content) as [[decision reasoning]|e].
Qed.

(** X1. The decision step reads the first two lines of the stripped answer
    and nothing after them: the rationale is the second line as it stands,
    so an empty second line gives an empty rationale whatever follows. *)
Theorem decide_reads_two_lines (state : State) (log : list Event)
    (user_question : PyVal) (content first second rest : string) :
  state !! "user_question" = Some user_question ->
  llm_invoke w log (decision_prompt user_question) = Ok content ->
  PyStr.strip content
  = first +:+ PyStr.nl +:+ second +:+ PyStr.nl +:+ rest ->
  "010"%char ∉ PyStr.chars first ->
  "010"%char ∉ PyStr.chars second ->
  (decide_search_need w state log).1
  = Ok (<["reasoning" := VStr ("Decision: " +:+ PyStr.strip first
                               +:+ ". Reasoning: " +:+ second)]>
        (<["needs_search" := VBool (String.eqb (PyStr.strip first) "SEARCH")]>
           state)).
Proof.
  intros Hq Hllm Hstrip Hfirst Hsecond.
  rewrite (decide_search_need_after_answer _ _ _ _ Hq Hllm). simpl.
  unfold parse_decision. rewrite Hstrip.
  change (first +:+ PyStr.nl +:+ second +:+ PyStr.nl +:+ rest)
    with (first +:+ String "010" (second +:+ String "010" rest)).
  rewrite PyStrMore.split_app_sep by done.
  rewrite PyStrMore.split_app_sep by done.
  destruct (PyStrFacts.split_cons "010" rest) as (r & rs & ->). done.
Qed.

(** X2. White space around the model's answer does not change the
    decision: an answer padded on both sides is parsed as the answer
    itself. *)
Theorem decide_ignores_padding (state : State) (log : list Event)
    (user_question : PyVal) (before content after : string) :
  state !! "user_question" = Some user_question ->
  llm_invoke w log (decision_prompt user_question)
  = Ok (before +:+ content +:+ after) ->
  Forall (fun c => PyStr.is_space c = true) (PyStr.chars before) ->
  Forall (fun c => PyStr.is_space c = true) (PyStr.chars after) ->
  parse_decision (before +:+ content +:+ after) = parse_decision content
  /\ exists decision reasoning,
       parse_decision content = Ok (decision, reasoning)
       /\ (decide_search_need w state log).1
          = Ok (<["reasoning" := VStr ("Decision: " +:+ decision
                                       +:+ ". Reasoning: " +:+ reasoning)]>
                (<["needs_search" := VBool (String.eqb decision "SEARCH")]>
                   state)).
Proof.
  intros Hq Hllm Hbefore Hafter.
  assert (Hsame : parse_decision (before +:+ content +:+ after)
                  = parse_decision content).
  { unfold parse_decision. by rewrite PyStrMore.strip_padding. }
  split; [done |].
  destruct (parse_decision_ok content) as (first & rest & _ & Hparse).
  eexists _, _. split; [exact Hparse |].
  rewrite (decide_search_need_after_answer _ _ _ _ Hq Hllm). simpl.
  by rewrite Hsame, Hparse.
Qed.

End DecisionFacts.

(** ** The search tool, continued *)

(** As [next_case], but a Boolean test is split before the computation that
    depends on it. *)
Ltac test_case :=
  match goal with
  | |- context [if ?b then _ else _] => destruct b eqn:?
  | |- context [match ?x with Ok _ => _ | Raise _ => _ end] => destruct x eqn:?
  | |- context [match ?x with (_, _) => _ end] => destruct x eqn:?
  end.

Section SearchShapes.

Context (w : World).

(** X3. Whatever the two requests do, the tool returns a string of one of
    five shapes: the found-information message, the could-not-retrieve
    message, the no-articles message for the query, the status message, or
    the search-error message of an exception. *)
Theorem wikipedia_search_outputs (query : string) (log : list Event) :
  exists s,
    (wikipedia_search w query log).1 = Ok s
    /\ ((exists title shown,
           s = "Found information about '" +:+ title +:+ "': "
               +:+ shown +:+ "...")
        \/ (exists title,
              s = "Found '" +:+ title +:+ "' but couldn't retrieve summary")
        \/ s = "No Wikipedia articles found for '" +:+ query +:+ "'"
        \/ (exists status : Z,
              s = "Wikipedia search failed with status "
                  +:+ PyStr.of_int status)
        \/ (exists e, s = "Search error: " +:+ exc_str e)).
Proof.
  unfold wikipedia_search, wikipedia_search_body, http_get. run_m. simpl.
  repeat (test_case; simpl);
    (eexists; split; [reflexivity |]);
    first [ by left; eauto
          | by right; left; eauto
          | by right; right; left
          | by right; right; right; left; eauto
          | by right; right; right; right; eauto ].
Qed.

(** X4. The summary request goes to the REST prefix followed by the title
    with every space replaced by an underscore: the URL has no space and the
    length of the prefix plus that of the title, and a title without spaces
    is used as it is. *)
Theorem summary_url_has_no_space (title : string) :
  second_get title
  = HttpGet (summary_url (PyStr.replace " " "_" title)) []
  /\ (" "%char ∉ PyStr.chars (summary_url (PyStr.replace " " "_" title)))
  /\ String.length (summary_url (PyStr.replace " " "_" title))
     = 50 + String.length title
  /\ (" "%char ∉ PyStr.chars title ->
      summary_url (PyStr.replace " " "_" title)
      = "https://en.wikipedia.org/api/rest_v1/page/summary/" +:+ title).
Proof.
  split; [done |]. unfold summary_url. split; [| split].
  - rewrite PyStrFacts.chars_append, elem_of_app. intros [Hc | Hc].
    + apply list_elem_of_In in Hc. simpl in Hc. intuition discriminate.
    + by apply PyStrMore.replace_absent in Hc.
  - generalize (PyStr.replace " " "_" title) (PyStrMore.replace_length " " "_" title).
    intros s <-. done.
  - intros Hs. by rewrite PyStrMore.replace_id.
Qed.

End SearchShapes.

(** ** The pipeline, continued *)

Section RunFacts.

Context (w : World).

(** The calls a node makes, whether it returns or raises. *)
Lemma decide_search_need_log (state : State) (log : list Event) :
  (decide_search_need w state log).2 = log
  \/ exists prompt, (decide_search_need w state log).2 = log ++ [LLMInvoke prompt].
Proof.
  unfold decide_search_need, getitem, llm_call. run_m.
  destruct (state !! "user_question") as [user_question|]; simpl; [| by left].
  right. exists (decision_prompt user_question).
  destruct (llm_invoke w log _) as [content|e]; [| done].
  by destruct (parse_decision content) as [[decision reasoning]|e].
Qed.

Lemma execute_search_log (state : State) (log : list Event) :
  (execute_search w state log).2 = log
  \/ exists query,
       (execute_search w state log).2 = log ++ [first_get query]
       \/ exists title,
            (execute_search w state log).2
            = log ++ [first_get query; second_get title].
Proof.
  unfold execute_search, getitem. run_m.
  destruct (state !! "needs_search") as [needs_search|]; simpl; [| by left].
  destruct (truthy needs_search); simpl; [| by left].
  destruct (state !! "user_question") as [[query|b]|]; simpl; try by left.
  rewrite wikipedia_search_catch. simpl. right. exists query.
  apply wikipedia_search_body_log.
Qed.

Lemma generate_response_log (state : State) (log : list Event) :
  (generate_response w state log).2 = log
  \/ exists prompt, (generate_response w state log).2 = log ++ [LLMInvoke prompt].
Proof.
  unfold generate_response, getitem, llm_call. run_m.
  destruct (state !! "user_question") as [user_question|]; simpl; [| by left].
  destruct (state !! "needs_search") as [used_search|]; simpl; [| by left].
  destruct (response_prompt _ _ _) as [prompt|e]; simpl; [| by left].
  right. exists prompt. by destruct (llm_invoke w log prompt).
Qed.

(** The calls of one invocation, whatever its outcome. *)
Lemma simple_agent_calls (state : State) (log : list Event) :
  exists calls,
    run_log (simple_agent w state log) = log ++ calls
    /\ count is_llm_call calls <= 2
    /\ count is_http_get calls <= 2
    /\ Forall (fun e => is_llm_call e || is_http_get e = true) calls.
Proof.
  rewrite simple_agent_unfold.
  pose proof (decide_search_need_log state log) as Hd.
  destruct (decide_search_need w state log) as [[decided|e] log1];
    simpl in Hd.
  - pose proof (execute_search_log decided log1) as Hs.
    destruct (execute_search w decided log1) as [[searched|e] log2];
      simpl in Hs.
    + pose proof (generate_response_log searched log2) as Hr.
      destruct (generate_response w searched log2) as [[final|e] log3];
        simpl in Hr; simpl;
        destruct Hd as [-> | [p1 ->]];
        destruct Hs as [-> | [query [-> | [title ->]]]];
        destruct Hr as [-> | [p2 ->]];
        rewrite <- ?app_assoc; simpl;
        (eexists; split; [first [reflexivity | symmetry; apply app_nil_r] |]);
        calls_facts.
    + simpl;
        destruct Hd as [-> | [p1 ->]];
        destruct Hs as [-> | [query [-> | [title ->]]]];
        rewrite <- ?app_assoc; simpl;
        (eexists; split; [first [reflexivity | symmetry; apply app_nil_r] |]);
        calls_facts.
  - simpl; destruct Hd as [-> | [p1 ->]];
      (eexists; split; [first [reflexivity | symmetry; apply app_nil_r] |]);
      calls_facts.
Qed.

(** X5. Whatever the state, the services and the outcome, one invocation
    of the agent makes at most two LLM calls and at most two HTTP GETs, and
    no other call. *)
Theorem pipeline_call_budget (state : State) (log : list Event) :
  exists calls,
    run_log (simple_agent w state log) = log ++ calls
    /\ count is_llm_call calls <= 2
    /\ count is_http_get calls <= 2
    /\ Forall (fun e => is_llm_call e || is_http_get e = true) calls.
Proof. apply simple_agent_calls. Qed.

(** A returned final state is the initial one with the four written keys. *)
Lemma simple_agent_final (state final : State) (log : list Event) :
  outcome (simple_agent w state log) = Ok final ->
  exists flag rationale result answer,
    final = <["final_answer" := VStr answer]>
              (<["search_result" := VStr result]>
                 (<["reasoning" := VStr rationale]>
                    (<["needs_search" := VBool flag]> state))).
Proof.
  intros (decided & log1 & searched & log2 & H1 & H2 & H3 & _)%simple_agent_ok.
  apply decide_search_need_ok in H1 as (q & flag & rationale & _ & -> & _).
  apply execute_search_ok in H2 as (n & result & _ & -> & _).
  apply generate_response_ok in H3 as (p & answer & -> & _).
  by exists flag, rationale, result, answer.
Qed.

(** With a question that is a string, the search step returns. *)
Lemma execute_search_returns (state : State) (log : list Event)
    (flag : bool) (query : string) :
  state !! "needs_search" = Some (VBool flag) ->
  state !! "user_question" = Some (VStr query) ->
  exists result,
    (execute_search w state log).1
    = Ok (<["search_result" := VStr result]> state).
Proof.
  intros Hflag Hq. unfold execute_search, getitem. run_m.
  rewrite Hflag. simpl. destruct flag; simpl.
  - rewrite Hq. simpl. rewrite wikipedia_search_catch. simpl. by eauto.
  - by eauto.
Qed.

(** X6. On a state whose question is a string, a run can fail only with
    an exception that an LLM call raised: failures of the HTTP requests
    never abort it. When every LLM call returns, the run completes. *)
Theorem pipeline_fails_only_on_llm (state : State) (log : list Event)
    (query : string) :
  state !! "user_question" = Some (VStr query) ->
  (forall e,
     outcome (simple_agent w state log) = Raise e ->
     exists log' prompt, llm_invoke w log' prompt = Raise e)
  /\ ((forall log' prompt, is_ok (llm_invoke w log' prompt) = true) ->
      is_ok (outcome (simple_agent w state log)) = true).
Proof.
  intros Hq.
  assert (Hfail : forall e,
             outcome (simple_agent w state log) = Raise e ->
             exists log' prompt, llm_invoke w log' prompt = Raise e).
  { intros e. rewrite simple_agent_unfold.
    destruct (decide_search_need w state log) as [[decided|e1] log1] eqn:Hd.
    - apply decide_search_need_ok in Hd as (q & flag & rationale & _ & -> & _).
      set (decided := <["reasoning" := _]> _).
      destruct (execute_search_returns decided log1 flag query)
        as [result Hs]; [by subst decided; simplify_map_eq.. |].
      destruct (execute_search w decided log1) as [[searched|e2] log2];
        simpl in Hs; [| done]. injection Hs as ->.
      unfold generate_response, getitem, llm_call, response_prompt. run_m.
      subst decided. simplify_map_eq. simpl.
      destruct flag; simpl;
        [destruct (PyStr.contains "Search error" result); simpl |];
        (destruct (llm_invoke w log2 _) as [content|e3] eqn:Hllm; simpl;
         [done | intros [= <-]; by eauto]).
    - simpl. intros [= <-]. revert Hd.
      unfold decide_search_need, getitem, llm_call. run_m.
      rewrite Hq. simpl.
      destruct (llm_invoke w log _) as [content|e3] eqn:Hllm.
      + by destruct (parse_decision_ok content) as (first & rest & _ & ->).
      + intros [= <- _]. by eauto. }
  split; [exact Hfail |].
  intros Hllm. destruct (outcome (simple_agent w state log)) as [final|e] eqn:Hrun;
    [done |].
  destruct (Hfail e eq_refl) as (log' & prompt & Hraise).
  specialize (Hllm log' prompt). by rewrite Hraise in Hllm.
Qed.

End RunFacts.

(** ** Whole runs, call by call *)

Section WholeRuns.

Context (w : World) (state : State) (log : list Event).
Context (user_question : PyVal) (content reasoning : string).

Hypothesis question_present : state !! "user_question" = Some user_question.
Hypothesis model_answers :
  llm_invoke w log (decision_prompt user_question) = Ok content.


End WholeRuns.

Section SearchingRuns.

Context (w : World) (state : State) (log : list Event).
Context (query content reasoning : string).

Hypothesis question_present : state !! "user_question" = Some (VStr query).
Hypothesis model_answers :
  llm_invoke w log (decision_prompt (VStr query)) = Ok content.
Hypothesis model_says_search : parse_decision content = Ok ("SEARCH", reasoning).




End SearchingRuns.

(** ** The test runner *)

Section TestRunnerFacts.

Context (w : World) {Seconds : Type}.
Context (elapsed : list Event -> list Event -> Seconds).

Lemma initial_state_question (question : string) :
  initial_state question !! "user_question" = Some (VStr question).
Proof. unfold initial_state. by simplify_map_eq. Qed.

(** What one test returns, from the run it makes. *)
Lemma run_test_result (question test_type : string) (log : list Event) :
  let run := simple_agent w (initial_state question) log in
  exists report,
    run_test_with_observability w elapsed question test_type log
    = (Ok report, run_log run)
    /\ match outcome run with
       | Ok final =>
           exists flag rationale,
             final !! "needs_search" = Some (VBool flag)
             /\ final !! "reasoning" = Some (VStr rationale)
             /\ report = success_report question test_type (VBool flag)
                           (elapsed log (run_log run)) (VStr rationale)
       | Raise e => report = failure_report question test_type e
       end.
Proof.
  intros run.
  unfold run_test_with_observability, run_test_body, invoke_agent, current_log.
  run_m. fold run.
  destruct (outcome run) as [final|e] eqn:Hrun; [| by eauto].
  destruct (simple_agent_final w _ _ _ Hrun)
    as (flag & rationale & result & answer & ->).
  unfold getitem. simplify_map_eq. simpl.
  eexists. split; [reflexivity |]. by exists flag, rationale.
Qed.

(** X10. [run_test_with_observability] never raises. It reports success
    exactly when the run completes, with the flag and the rationale of the
    final state; when the run raises [e] it reports failure with
    [str(e)]. Either way it makes the calls of the run and no other. *)
Theorem run_test_reports (question test_type : string) (log : list Event) :
  let run := simple_agent w (initial_state question) log in
  exists report,
    run_test_with_observability w elapsed question test_type log
    = (Ok report, run_log run)
    /\ match outcome run with
       | Ok final =>
           exists flag rationale,
             final !! "needs_search" = Some (VBool flag)
             /\ final !! "reasoning" = Some (VStr rationale)
             /\ report = success_report question test_type (VBool flag)
                           (elapsed log (run_log run)) (VStr rationale)
       | Raise e => report = failure_report question test_type e
       end.
Proof. apply run_test_result. Qed.

(** X11. When the provider rejects the first LLM call, as it does with the
    empty API key of the configuration cell, the test reports failure with
    the provider's message after that single call: no search, no second
    LLM call. *)
Theorem run_test_without_llm (question test_type : string) (log : list Event)
    (e : PyExc) :
  llm_invoke w log (decision_prompt (VStr question)) = Raise e ->
  run_test_with_observability w elapsed question test_type log
  = (Ok [ ("question", RVal (VStr question));
          ("type", RVal (VStr test_type));
          ("success", RVal (VBool false));
          ("error", RVal (VStr (exc_str e))) ],
     log ++ [LLMInvoke (decision_prompt (VStr question))]).
Proof.
  intros Hllm.
  assert (Hrun : simple_agent w (initial_state question) log
                 = mkRun (Raise e) ["decide"]
                     (log ++ [LLMInvoke (decision_prompt (VStr question))])).
  { rewrite simple_agent_unfold.
    unfold decide_search_need, getitem, llm_call. run_m.
    rewrite initial_state_question. simpl. by rewrite Hllm. }
  unfold run_test_with_observability, run_test_body, invoke_agent, current_log.
  run_m. by rewrite Hrun.
Qed.

Lemma assoc_report_keys (question test_type : string)
    (report : list (string * ReportVal Seconds)) :
  (exists flag time rationale,
      report = success_report question test_type flag time rationale)
  \/ (exists e, report = failure_report question test_type e) ->
  assoc "question" report = Some (RVal (VStr question))
  /\ assoc "type" report = Some (RVal (VStr test_type))
  /\ exists success, assoc "success" report = Some (RVal (VBool success)).
Proof. intros [(f & t & r & ->) | (e & ->)]; simpl; by eauto. Qed.

(** X12. The loop over the test cases never raises and returns one report
    per case, in the order of the cases, each carrying the question and the
    type of its case and a Boolean [success]; for [n] cases it makes at most
    [2 n] LLM calls and at most [2 n] HTTP GETs. *)
Theorem run_tests_reports (cases : list TestCase)
    (test_results : list (list (string * ReportVal Seconds)))
    (log : list Event) :
  exists reports calls,
    run_tests w elapsed cases test_results log
    = (Ok (test_results ++ reports), log ++ calls)
    /\ length reports = length cases
    /\ Forall2
         (fun test_case report =>
            assoc "question" report
            = Some (RVal (VStr (case_question test_case)))
            /\ assoc "type" report = Some (RVal (VStr (case_type test_case)))
            /\ exists success,
                 assoc "success" report = Some (RVal (VBool success)))
         cases reports
    /\ count is_llm_call calls <= 2 * length cases
    /\ count is_http_get calls <= 2 * length cases.
Proof.
  revert test_results log.
  induction cases as [|test_case rest IH]; intros test_results log.
  - exists [], []. rewrite !app_nil_r. by split_and!; try constructor.
  - simpl. run_m.
    destruct (run_test_result (case_question test_case) (case_type test_case) log)
      as (report & Hrun & Hreport).
    rewrite Hrun.
    destruct (simple_agent_calls w (initial_state (case_question test_case)) log)
      as (calls1 & Hcalls & Hllm & Hget & _).
    rewrite Hcalls in *.
    destruct (IH (test_results ++ [report]) (log ++ calls1))
      as (reports & calls2 & Hrest & Hlen & Hall & Hllm2 & Hget2).
    rewrite Hrest. exists (report :: reports), (calls1 ++ calls2).
    rewrite <- !app_assoc. simpl. rewrite !count_app.
    split_and!; try done; try lia.
    constructor; [| done].
    apply assoc_report_keys.
    destruct (outcome _) as [final|e].
    + destruct Hreport as (flag & rationale & _ & _ & ->). left. by eauto.
    + right. by eauto.
Qed.

End TestRunnerFacts.

(** ** Notebook 2, continued *)

Section SessionFacts.

(** X13. The session cell never looks at the HTTP status: two responses
    with the same body give the same result, whatever their status codes,
    the worlds and the logs. *)
Theorem create_session_ignores_status (w1 w2 : World) (log1 log2 : list Event)
    (r1 r2 : HttpResponse) :
  requests_post w1 log1 sessions_url payload headers = Ok r1 ->
  requests_post w2 log2 sessions_url payload headers = Ok r2 ->
  json r1 = json r2 ->
  (create_session w1 log1).1 = (create_session w2 log2).1.
Proof.
  intros H1 H2 Hbody. unfold create_session. run_m.
  rewrite H1, H2. simpl. rewrite Hbody.
  repeat (test_case; simpl; try done).
Qed.

Context (w : World) (log : list Event).

(** X14. When the session cell raises, the notebook raises the same
    exception having made the POST and nothing else: no browser connection
    is attempted. A body without [data] raises [KeyError('data')], and a
    [data] dict without [cdp_url] raises [KeyError('cdp_url')]. *)
Theorem session_failure_stops_notebook :
  (forall e log',
     create_session w log = (Raise e, log') ->
     notebook w log = (Raise e, log ++ [session_post]))
  /\ (forall r items,
        requests_post w log sessions_url payload headers = Ok r ->
        json r = Ok (JObj items) ->
        assoc "data" items = None ->
        notebook w log = (Raise (KeyError "'data'"), log ++ [session_post]))
  /\ (forall r items data,
        requests_post w log sessions_url payload headers = Ok r ->
        json r = Ok (JObj items) ->
        assoc "data" items = Some (JObj data) ->
        assoc "cdp_url" data = None ->
        notebook w log = (Raise (KeyError "'cdp_url'"), log ++ [session_post])).
Proof.
  assert (Hstop : forall e log',
             create_session w log = (Raise e, log') ->
             notebook w log = (Raise e, log ++ [session_post])).
  { intros e log' Hraise. pose proof (create_session_log w log) as Hlog.
    rewrite Hraise in Hlog. simpl in Hlog. subst log'.
    unfold notebook. run_m. by rewrite Hraise. }
  split; [exact Hstop | split].
  - intros r items Hpost Hbody Hdata. eapply Hstop.
    unfold create_session. run_m. rewrite Hpost. simpl. rewrite Hbody. simpl.
    by rewrite Hdata.
  - intros r items data Hpost Hbody Hdata Hurl. eapply Hstop.
    unfold create_session. run_m. rewrite Hpost. simpl. rewrite Hbody. simpl.
    rewrite Hdata. simpl. by rewrite Hurl.
Qed.

(** X15. Once connected with the agent's worker present, the form cell
    navigates the first open page of the context, or a page it opens when
    the context has none, to the resume URL, and submits the task only
    after that navigation has returned. *)
Theorem complete_form_page (connection_string : Json) (browser : Browser)
    (context : BrowserContext) (others : list BrowserContext) (worker : string) :
  connect_over_cdp w log connection_string = Ok browser ->
  contexts browser = context :: others ->
  find_worker ai_agent_url (service_workers context) = Some worker ->
  let connected := log ++ [CdpConnect connection_string] in
  let navigate (from : list Event) (page : nat) : list Event :=
    PageGoto page resume_url
    :: match page_goto w from page resume_url with
       | Ok _ => [task_submission]
       | Raise _ => []
       end in
  (complete_form w connection_string log).2
  = match pages context with
    | page :: _ => connected ++ navigate connected page
    | [] =>
        match new_page w connected with
        | Ok page => connected ++ NewPage :: navigate (connected ++ [NewPage]) page
        | Raise _ => connected ++ [NewPage]
        end
    end.
Proof.
  intros Hconnect Hcontexts Hworker connected navigate.
  pose proof (find_worker_url _ _ _ Hworker) as ->.
  unfold complete_form, task_submission, list_getitem. run_m.
  rewrite Hconnect. simpl. rewrite Hcontexts. simpl. rewrite Hworker.
  subst connected navigate. simpl.
  destruct (pages context) as [|page rest]; simpl.
  - destruct (new_page w _) as [page|e]; simpl; [| done].
    destruct (page_goto w _ page resume_url) as [[]|e]; simpl;
      by rewrite <- !app_assoc.
  - destruct (page_goto w _ page resume_url) as [[]|e]; simpl;
      by rewrite <- !app_assoc.
Qed.

End SessionFacts.

(** ** The further properties at concrete runs *)

(** Decide a closed decidable proposition by evaluation. *)
Ltac by_decision := apply (bool_decide_unpack _); vm_compute; exact I.

Lemma decide_reads_two_lines_witness :
  initial_state france !! "user_question" = Some (VStr france)
  /\ PyStr.strip ("SEARCH" +:+ PyStr.nl +:+ PyStr.nl
                  +:+ "Because the election is recent.")
     = "SEARCH" +:+ PyStr.nl +:+ "" +:+ PyStr.nl
       +:+ "Because the election is recent."
  /\ (decide_search_need world_blank_second_line (initial_state france) []).1
     = Ok (after_decide (initial_state france) "" "SEARCH").
Proof.
  assert (Hq : initial_state france !! "user_question" = Some (VStr france))
    by by_evaluation.
  assert (Hstrip : PyStr.strip ("SEARCH" +:+ PyStr.nl +:+ PyStr.nl
                                +:+ "Because the election is recent.")
                   = "SEARCH" +:+ PyStr.nl +:+ "" +:+ PyStr.nl
                     +:+ "Because the election is recent.")
    by by_evaluation.
  split_and!; [exact Hq | exact Hstrip |].
  refine (decide_reads_two_lines world_blank_second_line (initial_state france)
            [] (VStr france) _ "SEARCH" "" "Because the election is recent."
            Hq eq_refl Hstrip _ _); by_decision.
Defined.

Lemma decide_ignores_padding_witness :
  initial_state france !! "user_question" = Some (VStr france)
  /\ Forall (fun c => PyStr.is_space c = true) (PyStr.chars "  ")
  /\ Forall (fun c => PyStr.is_space c = true) (PyStr.chars (" " +:+ PyStr.nl))
  /\ parse_decision ("  " +:+ ("DIRECT" +:+ PyStr.nl +:+ "Well known")
                     +:+ " " +:+ PyStr.nl)
     = parse_decision ("DIRECT" +:+ PyStr.nl +:+ "Well known").
Proof.
  assert (Hq : initial_state france !! "user_question" = Some (VStr france))
    by by_evaluation.
  assert (Hb : Forall (fun c => PyStr.is_space c = true) (PyStr.chars "  "))
    by (by repeat constructor).
  assert (Ha : Forall (fun c => PyStr.is_space c = true)
                 (PyStr.chars (" " +:+ PyStr.nl)))
    by (by repeat constructor).
  split_and!; [exact Hq | exact Hb | exact Ha |].
  exact (proj1 (decide_ignores_padding world_padded (initial_state france) []
                  (VStr france) "  " ("DIRECT" +:+ PyStr.nl +:+ "Well known")
                  (" " +:+ PyStr.nl) Hq eq_refl Hb Ha)).
Defined.

Lemma summary_url_has_no_space_witness :
  (" "%char ∉ PyStr.chars "Paris")
  /\ summary_url (PyStr.replace " " "_" "Paris")
     = "https://en.wikipedia.org/api/rest_v1/page/summary/Paris".
Proof.
  assert (Hs : " "%char ∉ PyStr.chars "Paris") by by_decision.
  split; [exact Hs |].
  destruct (summary_url_has_no_space "Paris") as (_ & _ & _ & Hsame).
  exact (Hsame Hs).
Defined.

Lemma pipeline_fails_only_on_llm_witness :
  initial_state eiffel !! "user_question" = Some (VStr eiffel)
  /\ is_ok (outcome (simple_agent world_offline (initial_state eiffel) [])) = true.
Proof.
  assert (Hq : initial_state eiffel !! "user_question" = Some (VStr eiffel))
    by by_evaluation.
  split; [exact Hq |].
  destruct (pipeline_fails_only_on_llm world_offline (initial_state eiffel) []
              eiffel Hq) as [_ Hok].
  apply Hok. intros log' prompt. reflexivity.
Defined.




Lemma run_test_without_llm_witness :
  llm_invoke world_llm_down [] (decision_prompt (VStr france))
  = Raise invalid_api_key
  /\ run_test_with_observability world_llm_down frozen_clock france
       "direct_answer" []
     = (Ok [ ("question", RVal (VStr france));
             ("type", RVal (VStr "direct_answer"));
             ("success", RVal (VBool false));
             ("error", RVal (VStr "Incorrect API key provided")) ],
        [LLMInvoke (decision_prompt (VStr france))]).
Proof.
  split; [reflexivity |].
  exact (run_test_without_llm world_llm_down frozen_clock france "direct_answer"
           [] invalid_api_key eq_refl).
Defined.

Lemma create_session_ignores_status_witness :
  json (mkResponse 200 (Ok session_body)) = json (mkResponse 500 (Ok session_body))
  /\ (create_session (session_world 200 session_body) []).1
     = (create_session (session_world 500 session_body) []).1.
Proof.
  split; [reflexivity |].
  exact (create_session_ignores_status (session_world 200 session_body)
           (session_world 500 session_body) [] []
           (mkResponse 200 (Ok session_body)) (mkResponse 500 (Ok session_body))
           eq_refl eq_refl eq_refl).
Defined.

Lemma session_failure_stops_notebook_witness :
  notebook (session_world 200 (JObj [ ("error", JStr "unauthorized") ])) []
  = (Raise (KeyError "'data'"), [session_post])
  /\ notebook (session_world 200 (JObj [ ("data", JObj [ ("id", JStr "s-1") ]) ])) []
     = (Raise (KeyError "'cdp_url'"), [session_post]).
Proof.
  split.
  - destruct (session_failure_stops_notebook
                (session_world 200 (JObj [ ("error", JStr "unauthorized") ])) [])
      as (_ & Hdata & _).
    exact (Hdata (mkResponse 200 (Ok (JObj [ ("error", JStr "unauthorized") ])))
             [ ("error", JStr "unauthorized") ] eq_refl eq_refl eq_refl).
  - destruct (session_failure_stops_notebook
                (session_world 200 (JObj [ ("data", JObj [ ("id", JStr "s-1") ]) ])) [])
      as (_ & _ & Hurl).
    exact (Hurl (mkResponse 200 (Ok (JObj [ ("data", JObj [ ("id", JStr "s-1") ]) ])))
             [ ("data", JObj [ ("id", JStr "s-1") ]) ] [ ("id", JStr "s-1") ]
             eq_refl eq_refl eq_refl eq_refl).
Defined.

Lemma complete_form_page_witness :
  (complete_form (anchor_world [ai_agent_url]) (JStr "wss://x") []).2
  = [ CdpConnect (JStr "wss://x"); PageGoto 7 resume_url; task_submission ]
  /\ (complete_form (session_world 200 session_body) (JStr "wss://x") []).2
     = [ CdpConnect (JStr "wss://x"); NewPage; PageGoto 0 resume_url;
         task_submission ].
Proof.
  split.
  - exact (complete_form_page (anchor_world [ai_agent_url]) [] (JStr "wss://x")
             (mkBrowser [ mkContext [ai_agent_url] [7] ])
             (mkContext [ai_agent_url] [7]) [] ai_agent_url
             eq_refl eq_refl eq_refl).
  - exact (complete_form_page (session_world 200 session_body) [] (JStr "wss://x")
             (mkBrowser [ mkContext [ai_agent_url] [] ])
             (mkContext [ai_agent_url] []) [] ai_agent_url
             eq_refl eq_refl eq_refl).
Defined.
